(** * Agent-based regime-transition model: simulation and sensitivity engine

    A shallow embedding of the JavaScript sources [agent.js], [society.js],
    [equations.js], [simulator.js] and [sensitivity.js], and the properties
    the specification states about them.

    Conventions of the embedding.
    - A JavaScript number is a [number]: a rational, [Infinity],
      [-Infinity] or [NaN].  An operation on rationals is exact as long as
      its value does not exceed [Number.MAX_VALUE] in magnitude, and gives
      the infinity of its sign beyond; the special values follow IEEE 754
      (an infinity minus itself, zero times an infinity and zero over zero
      are [NaN], every comparison with [NaN] is false, [Math.max] and
      [Math.min] return [NaN] as soon as one operand is).  What is left out:
      the rounding of a finite result to the nearest double, and the sign of
      zero (a non-zero number over zero takes the sign of the numerator).
    - [Math.sqrt] of a rational has no rational model; it is an operation of
      the host ([MathHost]).  The general statements hold for every host;
      the closed examples run on [RationalHost], whose square root is exact
      where they use it.
    - [Math.random], [console.log] and the progress callback are effects: a
      computation threads a [Runtime] holding the entropy source, the number
      of draws made so far, and the outputs emitted so far, in order.
    - Objects shared by reference (the agents array, which [Society] and the
      neighbour lists alias) live in one store, a [list Agent]; a neighbour is
      an index into it.
    - The [Parameters] object is a property bag [gmap string number]: it is
      read by field name and written by computed key; a property that is
      not there reads as [undefined], which arithmetic turns into [NaN].
    - A [for] loop whose bound is not a finite number: a bound of [NaN] or
      [-Infinity] gives no pass, as in the source; under a bound of
      [Infinity] (a time step of 0) the source loops until its body breaks
      out, and the embedding does not follow it there ([tripCount]). *)

From Stdlib Require Import QArith Qround Qabs Qminmax Lqa Lia.
From stdpp Require Import gmap strings list.

Local Open Scope Q_scope.

(** ** Numbers *)

Definition Qltb (a b : Q) : bool := negb (Qle_bool b a).

Inductive number :=
| Num (q : Q)
| Infinity
| NegInfinity
| NaN.

Coercion Num : Q >-> number.

Declare Scope num_scope.
Delimit Scope num_scope with num.
Bind Scope num_scope with number.

(** [Number.MAX_VALUE], the largest finite double. *)
Definition MAX_VALUE : Q := inject_Z (2 ^ 1024 - 2 ^ 971).

(** The number an operation yields when its exact value is [q]. *)
Definition finish (q : Q) : number :=
  if Qltb MAX_VALUE q then Infinity
  else if Qltb q (- MAX_VALUE) then NegInfinity
  else Num q.

Definition neg (a : number) : number :=
  match a with
  | Num x => Num (- x)
  | Infinity => NegInfinity
  | NegInfinity => Infinity
  | NaN => NaN
  end.

Definition add (a b : number) : number :=
  match a, b with
  | NaN, _ | _, NaN => NaN
  | Num x, Num y => finish (x + y)
  | Infinity, NegInfinity | NegInfinity, Infinity => NaN
  | Infinity, _ | _, Infinity => Infinity
  | NegInfinity, _ | _, NegInfinity => NegInfinity
  end.

Definition sub (a b : number) : number := add a (neg b).

(** An infinity times a finite factor, and a finite numerator over zero:
    the sign of the finite operand decides, and zero gives no number. *)
Definition signed (inf : number) (q : Q) : number :=
  match q ?= 0 with
  | Gt => inf
  | Lt => neg inf
  | Eq => NaN
  end.

Definition mul (a b : number) : number :=
  match a, b with
  | NaN, _ | _, NaN => NaN
  | Num x, Num y => finish (x * y)
  | Num x, inf => signed inf x
  | inf, Num y => signed inf y
  | Infinity, Infinity | NegInfinity, NegInfinity => Infinity
  | Infinity, NegInfinity | NegInfinity, Infinity => NegInfinity
  end.

Definition div (a b : number) : number :=
  match a, b with
  | NaN, _ | _, NaN => NaN
  | Num x, Num y => if Qeq_bool y 0 then signed Infinity x else finish (x / y)
  | Num _, _ => Num 0
  | inf, Num y => if Qle_bool 0 y then inf else neg inf
  | _, _ => NaN
  end.

Infix "+" := add : num_scope.
Infix "-" := sub : num_scope.
Infix "*" := mul : num_scope.
Infix "/" := div : num_scope.
Notation "- x" := (neg x) : num_scope.

(** [a < b], [a <= b] and [a === b]; [a > b] is [b < a], [a >= b] is
    [b <= a], [a !== b] the negation of [a === b]. *)
Definition lessThan (a b : number) : bool :=
  match a, b with
  | NaN, _ | _, NaN => false
  | Num x, Num y => Qltb x y
  | Num _, Infinity => true
  | Num _, NegInfinity => false
  | Infinity, _ => false
  | NegInfinity, NegInfinity => false
  | NegInfinity, _ => true
  end.

Definition atMost (a b : number) : bool :=
  match a, b with
  | NaN, _ | _, NaN => false
  | Num x, Num y => Qle_bool x y
  | Num _, Infinity => true
  | Num _, NegInfinity => false
  | Infinity, Infinity => true
  | Infinity, _ => false
  | NegInfinity, _ => true
  end.

Definition strictEq (a b : number) : bool :=
  match a, b with
  | Num x, Num y => Qeq_bool x y
  | Infinity, Infinity | NegInfinity, NegInfinity => true
  | _, _ => false
  end.

Definition isNaN (a : number) : bool :=
  match a with
  | NaN => true
  | _ => false
  end.

(** [Math.max] and [Math.min] on two arguments, [Math.abs], [Math.pow(v, 2)],
    [Math.floor]. *)
Definition Math_max (a b : number) : number :=
  if isNaN a || isNaN b then NaN else if lessThan a b then b else a.

Definition Math_min (a b : number) : number :=
  if isNaN a || isNaN b then NaN else if lessThan b a then b else a.

Definition Math_abs (a : number) : number :=
  match a with
  | Num x => Num (Qabs x)
  | Infinity | NegInfinity => Infinity
  | NaN => NaN
  end.

Definition Math_pow2 (a : number) : number := mul a a.

Definition Math_floor (a : number) : number :=
  match a with
  | Num x => Num (inject_Z (Qfloor x))
  | other => other
  end.

(** [a % b]: the remainder of the division truncated towards zero. *)
Definition remainder (a b : number) : number :=
  match a, b with
  | Num x, Num y =>
      if Qeq_bool y 0 then NaN
      else
        let quotient := x / y in
        let truncated := if Qle_bool 0 quotient then Qfloor quotient else Qceiling quotient in
        Num (x - y * inject_Z truncated)
  | Num x, (Infinity | NegInfinity) => Num x
  | _, _ => NaN
  end.

(** A length or a loop counter, as a number. *)
Definition ofNat (n : nat) : number := Num (inject_Z (Z.of_nat n)).

(** How often the body of [for (let i = 0; i < bound; i++)] runs. *)
Definition tripCount (bound : number) : nat :=
  match bound with
  | Num x => Z.to_nat (Qceiling x)
  | _ => 0%nat
  end.

(** The host's square root of a non-negative rational. *)
Class MathHost := { sqrtOf : Q -> Q }.

Definition Math_sqrt `{MathHost} (a : number) : number :=
  match a with
  | Num x => if Qltb x 0 then NaN else Num (sqrtOf x)
  | Infinity => Infinity
  | _ => NaN
  end.

(** A host whose square root is exact on squares of rationals
    (and rounds both terms of the reduced fraction down elsewhere). *)
Definition rational_sqrt (a : Q) : Q :=
  let r := Qred a in Z.sqrt (Qnum r) # Pos.sqrt (Qden r).

Definition RationalHost : MathHost := {| sqrtOf := rational_sqrt |}.

Local Open Scope num_scope.

(** [arr.reduce((acc, v) => acc + v, 0)] *)
Definition sumOf (l : list number) : number := fold_left add l (Num 0).

(** ** Effects: entropy, console, callbacks *)

(** One line written by [console.log]; the payload is the data the template
    string interpolates, before [toFixed] formats it. *)
Inductive Line :=
| HighVariance (stdDev avgPsi : number) (psiValues : list number)
| SearchStart (paramName : string) (targetPsi : number) (extremum : string)
              (pMin psiMin pMax psiMax : number) (isIncreasing : bool)
| OutOfReach (targetPsi minPsiValue maxPsiValue result : number)
| Found (paramName : string) (result psiFinal : number) (iteration : nat)
| AnalysisStart
| ParameterHeader (key : string) (virtuous : bool) (min max : number)
| ZoneResult (key : string) (pAutocratic pDemocratic zoneWidth : number)
| AnalysisDone.

(** What a run emits: console lines, the final [console.table], and the
    calls made to a caller-supplied function.  A callback of the caller is
    known to the engine only through its invocation; [Invoke h] records one,
    [h] being what the callback makes of its arguments. *)
Inductive Output (H : Type) :=
| Console (l : Line)
| Table (rows : list (string * bool * number * number * number))
| Invoke (h : H).
Arguments Console {H} l.
Arguments Table {H} rows.
Arguments Invoke {H} h.

Record Runtime (H : Type) := mkRuntime {
  entropy : nat -> Q;
  draws : nat;
  outputs : list (Output H)
}.
Arguments mkRuntime {H}.
Arguments entropy {H}.
Arguments draws {H}.
Arguments outputs {H}.

Definition M (H A : Type) : Type := Runtime H -> A * Runtime H.

Definition ret {H A} (a : A) : M H A := fun rt => (a, rt).
Definition bind {H A B} (m : M H A) (k : A -> M H B) : M H B :=
  fun rt => let (a, rt') := m rt in k a rt'.

Notation "x <- m ;; k" := (bind m (fun x => k))
  (at level 100, m at next level, right associativity).
Notation "m ;;; k" := (bind m (fun _ => k))
  (at level 100, right associativity).

(** [Math.random()]: the next draw, a finite number. *)
Definition Math_random {H} : M H number :=
  fun rt => (Num (entropy rt (draws rt)),
             mkRuntime (entropy rt) (S (draws rt)) (outputs rt)).

Definition emit {H} (o : Output H) : M H unit :=
  fun rt => (tt, mkRuntime (entropy rt) (draws rt) (outputs rt ++ [o])).

Definition console_log {H} (l : Line) : M H unit := emit (Console l).

(** [for (const a of l) { ... }] with an effectful body producing the new element. *)
Fixpoint forEachM {H A B} (f : A -> M H B) (l : list A) : M H (list B) :=
  match l with
  | [] => ret []
  | a :: l' => b <- f a ;; bs <- forEachM f l' ;; ret (b :: bs)
  end.

(** ** agent.js: class Agent *)

Record Agent := mkAgent {
  agent_id : nat;
  agent_x : number;
  agent_y : number;
  wealth : number;
  education : number;
  security : number;
  toleranceEconomic : number;
  tolerancePhysical : number;
  toleranceCultural : number;
  civicEnergy : number;
  permeability : number;
  democraticAdherence : number;
  positiveContacts : number;
  negativeContacts : number;
  neighbors : list nat
}.

(** The derivatives object built by [computeAgentDerivatives]. *)
Record AgentDerivatives := mkAgentDerivatives {
  dAlpha : number;
  dTauC : number;
  dSecurity : number;
  dPermeability : number;
  dCivicEnergy : number
}.

Module AgentClass.

(** [new Agent(id, x, y)]: nine draws, in the order of the assignments. *)
Definition new {H} (id : nat) (x y : number) : M H Agent :=
  w <- Math_random ;;
  e <- Math_random ;;
  s <- Math_random ;;
  tw <- Math_random ;;
  tp <- Math_random ;;
  tc <- Math_random ;;
  ce <- Math_random ;;
  p <- Math_random ;;
  a <- Math_random ;;
  ret (mkAgent id x y w e s (tw * 2 - 1) (tp * 2 - 1) (tc * 2 - 1) ce p (a * 2 - 1) 0 0 []).

(** [getNeighborhoodAverage(property)]; [property] selects the field, and
    the neighbours are read from the store they point into. *)
Definition getNeighborhoodAverage (store : list Agent) (this : Agent)
    (property : Agent -> number) : number :=
  if Nat.eqb (length (neighbors this)) 0 then property this
  else
    let sum :=
      fold_left (fun acc j => acc + from_option property 0 (store !! j))
                (neighbors this) 0 in
    sum / ofNat (length (neighbors this)).

Definition clamp (value min max : number) : number := Math_max min (Math_min max value).

(** [update(derivatives, dt)]: the Euler increments, then the clamping. *)
Definition update (this : Agent) (derivatives : AgentDerivatives) (dt : number) : Agent :=
  let democraticAdherence1 := democraticAdherence this + dAlpha derivatives * dt in
  let toleranceCultural1 := toleranceCultural this + dTauC derivatives * dt in
  let security1 := security this + dSecurity derivatives * dt in
  let permeability1 := permeability this + dPermeability derivatives * dt in
  let civicEnergy1 := civicEnergy this + dCivicEnergy derivatives * dt in
  {| agent_id := agent_id this;
     agent_x := agent_x this;
     agent_y := agent_y this;
     wealth := Math_max 0 (wealth this);
     education := education this;
     security := clamp security1 0 1;
     toleranceEconomic := clamp (toleranceEconomic this) (-1) 1;
     tolerancePhysical := clamp (tolerancePhysical this) (-1) 1;
     toleranceCultural := clamp toleranceCultural1 (-1) 1;
     civicEnergy := clamp civicEnergy1 0 1;
     permeability := clamp permeability1 0 1;
     democraticAdherence := clamp democraticAdherence1 (-1) 1;
     positiveContacts := positiveContacts this;
     negativeContacts := negativeContacts this;
     neighbors := neighbors this |}.

(** [reset()]: nine fresh draws; identity, position and neighbours stay. *)
Definition reset {H} (this : Agent) : M H Agent :=
  w <- Math_random ;;
  e <- Math_random ;;
  s <- Math_random ;;
  tw <- Math_random ;;
  tp <- Math_random ;;
  tc <- Math_random ;;
  ce <- Math_random ;;
  p <- Math_random ;;
  a <- Math_random ;;
  ret (mkAgent (agent_id this) (agent_x this) (agent_y this)
               w e s (tw * 2 - 1) (tp * 2 - 1) (tc * 2 - 1) ce p (a * 2 - 1) 0 0
               (neighbors this)).

(** The assignments [agent.positiveContacts = ...; agent.negativeContacts = ...]. *)
Definition setContacts (this : Agent) (pos neg : number) : Agent :=
  {| agent_id := agent_id this; agent_x := agent_x this; agent_y := agent_y this;
     wealth := wealth this; education := education this; security := security this;
     toleranceEconomic := toleranceEconomic this;
     tolerancePhysical := tolerancePhysical this;
     toleranceCultural := toleranceCultural this;
     civicEnergy := civicEnergy this; permeability := permeability this;
     democraticAdherence := democraticAdherence this;
     positiveContacts := pos; negativeContacts := neg;
     neighbors := neighbors this |}.

(** The assignment [agent.neighbors = ...]. *)
Definition setNeighbors (this : Agent) (ns : list nat) : Agent :=
  {| agent_id := agent_id this; agent_x := agent_x this; agent_y := agent_y this;
     wealth := wealth this; education := education this; security := security this;
     toleranceEconomic := toleranceEconomic this;
     tolerancePhysical := tolerancePhysical this;
     toleranceCultural := toleranceCultural this;
     civicEnergy := civicEnergy this; permeability := permeability this;
     democraticAdherence := democraticAdherence this;
     positiveContacts := positiveContacts this;
     negativeContacts := negativeContacts this;
     neighbors := ns |}.

End AgentClass.

(** ** society.js: class Society *)

(** The six parallel arrays of [this.history]. *)
Record History := mkHistory {
  history_time : list number;
  history_orderParameter : list number;
  history_avgAlpha : list number;
  history_institutionalQuality : list number;
  history_polarization : list number;
  history_perceivedThreat : list number
}.

(** The macroscopic fields; [this.agents] is the shared store, passed along. *)
Record Society := mkSociety {
  gini : number;
  precarity : number;
  diversity : number;
  institutionalQuality : number;
  polarization : number;
  perceivedThreat : number;
  externalThreat : number;
  history : History
}.

Record MacroDerivatives := mkMacroDerivatives {
  dQ : number;
  dPhi : number;
  dM : number
}.

(** [arr.sort((a, b) => key(a) - key(b))]: ascending and stable.  (Keys that
    are not numbers make the comparison function inconsistent, and the order
    the host leaves is then its own.) *)
Fixpoint insertByKey {A} (key : A -> number) (a : A) (l : list A) : list A :=
  match l with
  | [] => [a]
  | b :: l' => if atMost (key a) (key b) then a :: l else b :: insertByKey key a l'
  end.

Definition sortByKey {A} (key : A -> number) (l : list A) : list A :=
  foldr (insertByKey key) [] l.

Module SocietyClass.

Definition emptyHistory : History := mkHistory [] [] [] [] [] [].

Definition new : Society := mkSociety 0.3 0.2 0.5 0.7 0.2 0.2 0.2 emptyHistory.

Definition calculateGini (agents : list Agent) : number :=
  let n := ofNat (length agents) in
  let wealths := sortByKey (fun w => w) (map wealth agents) in
  let totalWealth := sumOf wealths in
  if strictEq totalWealth 0 then 0
  else
    let giniSum :=
      sumOf (imap (fun i w => (2 * (ofNat i + 1) - n - 1) * w) wealths) in
    giniSum / (n * totalWealth).

Definition getAverage (agents : list Agent) (property : Agent -> number) : number :=
  sumOf (map property agents) / ofNat (length agents).

Definition getStdDev `{MathHost} (agents : list Agent) (property : Agent -> number) : number :=
  let avg := getAverage agents property in
  let squaredDiffs :=
    sumOf (map (fun agent => let diff := property agent - avg in diff * diff) agents) in
  Math_sqrt (squaredDiffs / ofNat (length agents)).

Definition getOrderParameter (agents : list Agent) (this : Society) : number :=
  let avgAlpha := getAverage agents democraticAdherence in
  avgAlpha * institutionalQuality this.

(** [update(derivatives, dt)]; Gini and precarity are recomputed from the
    store as it is when the method runs. *)
Definition update (agents : list Agent) (this : Society)
    (derivatives : MacroDerivatives) (dt : number) : Society :=
  let institutionalQuality1 := institutionalQuality this + dQ derivatives * dt in
  let polarization1 := polarization this + dPhi derivatives * dt in
  let perceivedThreat1 := perceivedThreat this + dM derivatives * dt in
  {| gini := calculateGini agents;
     precarity := 1 - getAverage agents security;
     diversity := diversity this;
     institutionalQuality := Math_max 0 (Math_min 1 institutionalQuality1);
     polarization := Math_max 0 (Math_min 1 polarization1);
     perceivedThreat := Math_max 0 (Math_min 1 perceivedThreat1);
     externalThreat := externalThreat this;
     history := history this |}.

Definition maxHistoryLength : nat := 1000.

(** [push] on the six arrays, then one [shift] on each past the cap. *)
Definition addToHistory (agents : list Agent) (this : Society) (time : number) : Society :=
  let h := history this in
  let pushed :=
    mkHistory (history_time h ++ [time])
              (history_orderParameter h ++ [getOrderParameter agents this])
              (history_avgAlpha h ++ [getAverage agents democraticAdherence])
              (history_institutionalQuality h ++ [institutionalQuality this])
              (history_polarization h ++ [polarization this])
              (history_perceivedThreat h ++ [perceivedThreat this]) in
  let capped :=
    if Nat.ltb maxHistoryLength (length (history_time pushed)) then
      mkHistory (tail (history_time pushed))
                (tail (history_orderParameter pushed))
                (tail (history_avgAlpha pushed))
                (tail (history_institutionalQuality pushed))
                (tail (history_polarization pushed))
                (tail (history_perceivedThreat pushed))
    else pushed in
  {| gini := gini this; precarity := precarity this; diversity := diversity this;
     institutionalQuality := institutionalQuality this;
     polarization := polarization this;
     perceivedThreat := perceivedThreat this;
     externalThreat := externalThreat this;
     history := capped |}.

(** [reset(initQ, initGini, extThreat)]: the society's fields, then every agent. *)
Definition reset {H} (agents : list Agent) (this : Society)
    (initQ initGini extThreat : number) : M H (list Agent * Society) :=
  let this1 :=
    {| gini := initGini; precarity := precarity this; diversity := 0.5;
       institutionalQuality := initQ; polarization := 0.2; perceivedThreat := 0.2;
       externalThreat := extThreat; history := emptyHistory |} in
  agents1 <- forEachM AgentClass.reset agents ;;
  ret (agents1, this1).

End SocietyClass.

(** ** equations.js: class Parameters and the derivative functions *)

Abbreviation Parameters := (gmap string number).

(** One assignment [this.name = value] of the constructor. *)
Definition own (name : string) (value : number) : string * number := (name, value).

(** [new Parameters()] *)
Definition newParameters : Parameters :=
  list_to_map
    [ own "beta1" 0.5; own "beta2" 0.3; own "beta3" 0.4; own "beta4" 0.6;
      own "gamma1" 0.3; own "gamma2" 0.4; own "gamma3" 0.5; own "gamma4" 0.3;
      own "delta1" 0.4; own "delta2" 0.3; own "delta3" 0.2; own "delta4" 0.3;
      own "delta5" 0.2;
      own "eta1" 0.3; own "eta2" 0.4; own "eta3" 0.3;
      own "lambda1" 0.4; own "lambda2" 0.3; own "lambda3" 0.3; own "lambda4" 0.2;
      own "mu1" 0.3; own "mu2" 0.4; own "mu3" 0.2;
      own "nu1" 0.5; own "nu2" 0.3; own "nu3" 0.4;
      own "rho1" 0.5; own "rho2" 0.4; own "rho3" 0.3; own "rho4" 0.2 ].

(** Property names every object inherits from [Parameters.prototype] and
    [Object.prototype]; the [in] operator sees them. *)
Definition inheritedProperties : list string :=
  [ "constructor"; "hasOwnProperty"; "isPrototypeOf"; "propertyIsEnumerable";
    "toLocaleString"; "toString"; "valueOf"; "__proto__";
    "__defineGetter__"; "__defineSetter__"; "__lookupGetter__"; "__lookupSetter__" ].

(** [name in params] *)
Definition hasProperty (params : Parameters) (name : string) : bool :=
  bool_decide (is_Some (params !! name)) || bool_decide (name ∈ inheritedProperties).

(** [params[name] = value] for a number: an own property is created or
    overwritten; an inherited [__proto__] is an accessor whose setter ignores
    numbers. *)
Definition setProperty (params : Parameters) (name : string) (value : number) : Parameters :=
  if bool_decide (name = "__proto__") && negb (bool_decide (is_Some (params !! name)))
  then params else <[name := value]> params.

(** [params.name], as arithmetic reads it: a property that is not there
    is [undefined], which an operation turns into [NaN]. *)
Definition field (params : Parameters) (name : string) : number :=
  default NaN (params !! name).

Definition computeDemocraticAdherence (store : list Agent) (agent : Agent)
    (society : Society) (params : Parameters) : number :=
  let avgAlpha := AgentClass.getNeighborhoodAverage store agent democraticAdherence in
  let socialInfluence := permeability agent * avgAlpha in
  let educationEffect :=
    field params "beta1" * education agent * (1 - democraticAdherence agent) in
  let insecurityErosion :=
    - field params "beta2" * (1 - security agent) * democraticAdherence agent in
  let institutionalEffect := field params "beta3" * institutionalQuality society in
  let fearEffect := - field params "beta4" * perceivedThreat society * permeability agent in
  socialInfluence + educationEffect + insecurityErosion + institutionalEffect + fearEffect.

Definition computeCulturalTolerance (agent : Agent) (society : Society)
    (params : Parameters) : number :=
  let educationOpenness :=
    field params "gamma1" * education agent * (1 - toleranceCultural agent) in
  let positiveContact :=
    field params "gamma2" * positiveContacts agent * (1 - toleranceCultural agent) in
  let negativeContact :=
    - field params "gamma3" * negativeContacts agent * (1 + toleranceCultural agent) in
  let identityRetreat :=
    - field params "gamma4" * (1 - security agent) * polarization society
      * toleranceCultural agent in
  educationOpenness + positiveContact + negativeContact + identityRetreat.

Definition computeSecurity (store : list Agent) (agent : Agent) (society : Society)
    (params : Parameters) : number :=
  let avgWealth := SocietyClass.getAverage store wealth in
  let relativeWealth := if lessThan 0 avgWealth then wealth agent / avgWealth else 1 in
  let wealthEffect := field params "delta1" * relativeWealth in
  let institutionalSafety := field params "delta2" * institutionalQuality society in
  let precarityEffect := - field params "delta3" * precarity society in
  let anxiousClimate := - field params "delta4" * perceivedThreat society in
  let mediaContagion := - field params "delta5" * permeability agent * polarization society in
  wealthEffect + institutionalSafety + precarityEffect + anxiousClimate + mediaContagion.

Definition computePermeability (agent : Agent) (society : Society)
    (params : Parameters) : number :=
  let criticalThinking := - field params "eta1" * education agent * permeability agent in
  let vulnerability :=
    field params "eta2" * (1 - security agent) * (1 - permeability agent) in
  let mediaPressure := field params "eta3" * polarization society * (1 - permeability agent) in
  criticalThinking + vulnerability + mediaPressure.

Definition computeCivicEnergy (store : list Agent) (agent : Agent) (society : Society)
    (params : Parameters) : number :=
  let avgEnergy := AgentClass.getNeighborhoodAverage store agent civicEnergy in
  let availability := field params "lambda1" * security agent * (1 - civicEnergy agent) in
  let survivalExhaustion := - field params "lambda2" * (1 - security agent) in
  let socialDrive := field params "lambda3" * avgEnergy in
  let institutionalDiscouragement :=
    - field params "lambda4" * (1 - institutionalQuality society) in
  availability + survivalExhaustion + socialDrive + institutionalDiscouragement.

Definition computeInstitutionalQuality (store : list Agent) (society : Society)
    (params : Parameters) : number :=
  let avgAlpha := SocietyClass.getAverage store democraticAdherence in
  let avgEnergy := SocietyClass.getAverage store civicEnergy in
  let democraticEngagement := field params "mu1" * avgAlpha * avgEnergy in
  let authoritarianCapture := - field params "mu2" * (1 - avgAlpha) * polarization society in
  let corruptionByInequality := - field params "mu3" * gini society in
  democraticEngagement + authoritarianCapture + corruptionByInequality.

Definition computePolarization `{MathHost} (store : list Agent) (society : Society)
    (params : Parameters) : number :=
  let opinionVariance := SocietyClass.getStdDev store democraticAdherence in
  let avgEducation := SocietyClass.getAverage store education in
  let opinionDivergence := field params "nu1" * opinionVariance in
  let economicFracture := field params "nu2" * gini society in
  let institutionalMediation :=
    - field params "nu3" * avgEducation * institutionalQuality society in
  opinionDivergence + economicFracture + institutionalMediation.

Definition computePerceivedThreat (store : list Agent) (society : Society)
    (params : Parameters) : number :=
  let avgTolerance := SocietyClass.getAverage store toleranceCultural in
  let avgSecurity := SocietyClass.getAverage store security in
  let realThreats := field params "rho1" * externalThreat society in
  let amplification :=
    field params "rho2" * polarization society * (1 - institutionalQuality society) in
  let xenophobia := field params "rho3" * diversity society * (1 - avgTolerance) in
  let collectiveResilience := - field params "rho4" * avgSecurity in
  realThreats + amplification + xenophobia + collectiveResilience.

Definition computeAgentDerivatives (store : list Agent) (agent : Agent)
    (society : Society) (params : Parameters) : AgentDerivatives :=
  {| dAlpha := computeDemocraticAdherence store agent society params;
     dTauC := computeCulturalTolerance agent society params;
     dSecurity := computeSecurity store agent society params;
     dPermeability := computePermeability agent society params;
     dCivicEnergy := computeCivicEnergy store agent society params |}.

Definition computeMacroDerivatives `{MathHost} (store : list Agent) (society : Society)
    (params : Parameters) : MacroDerivatives :=
  {| dQ := computeInstitutionalQuality store society params;
     dPhi := computePolarization store society params;
     dM := computePerceivedThreat store society params |}.

(** ** The population and one integration step

    [simulator.js] and [sensitivity.js] carry the same code for building the
    population, wiring the neighbourhoods, drawing the contacts and applying
    the derivatives; they differ in the constants (position scale, radius),
    which are arguments here. *)

(** [for (let i = 0; i < numAgents; i++) agents.push(new Agent(i, x, y))],
    positions drawn in [[0, scale)]. *)
Fixpoint createAgents {H} (scale : number) (i count : nat) : M H (list Agent) :=
  match count with
  | O => ret []
  | S count' =>
      x <- Math_random ;;
      y <- Math_random ;;
      a <- AgentClass.new i (x * scale) (y * scale) ;;
      rest <- createAgents scale (S i) count' ;;
      ret (a :: rest)
  end.

Definition distance `{MathHost} (agent other : Agent) : number :=
  let dx := agent_x agent - agent_x other in
  let dy := agent_y agent - agent_y other in
  Math_sqrt (dx * dx + dy * dy).

(** The neighbours of one agent: the others within the radius, or, when
    there is none, the five nearest others. *)
Definition neighborsOf `{MathHost} (neighborhoodRadius : number) (agents : list Agent)
    (agent : Agent) : list nat :=
  let others :=
    filter (fun jo => agent_id agent ≠ agent_id jo.2) (imap (fun j other => (j, other)) agents) in
  let within := filter (fun jo => lessThan (distance agent jo.2) neighborhoodRadius = true) others in
  if Nat.eqb (length within) 0 then
    let k := 5%nat in
    map fst (take k (sortByKey (fun jo => distance agent jo.2) others))
  else map fst within.

Definition setupNeighborhoods `{MathHost} (neighborhoodRadius : number) (agents : list Agent)
    : list Agent :=
  map (fun agent => AgentClass.setNeighbors agent (neighborsOf neighborhoodRadius agents agent))
      agents.

(** The contact pass on one agent. *)
Definition drawContacts {H} (society : Society) (agent : Agent) : M H Agent :=
  let contactProbability := diversity society * 0.1 in
  r <- Math_random ;;
  if lessThan r contactProbability then
    if lessThan 0 (toleranceCultural agent) then
      c <- Math_random ;; ret (AgentClass.setContacts agent (c * 0.5) 0)
    else
      c <- Math_random ;; ret (AgentClass.setContacts agent 0 (c * 0.5))
  else ret (AgentClass.setContacts agent 0 0).

Definition simulateInterculturalContacts {H} (society : Society) (agents : list Agent)
    : M H (list Agent) :=
  forEachM (drawContacts society) agents.

(** [for (let i = 0; i < agents.length; i++) agents[i].update(agentDerivatives[i], dt)]:
    the store is updated in place, one index after the other. *)
Definition updateAt (agentDerivatives : list AgentDerivatives) (dt : number)
    (store : list Agent) (i : nat) : list Agent :=
  match store !! i, agentDerivatives !! i with
  | Some agent, Some d => <[i := AgentClass.update agent d dt]> store
  | _, _ => store
  end.

Definition updateAgents (agentDerivatives : list AgentDerivatives) (dt : number)
    (store : list Agent) : list Agent :=
  fold_left (updateAt agentDerivatives dt) (seq 0 (length store)) store.

(** ** simulator.js: class Simulator *)

Record Simulator := mkSimulator {
  sim_numAgents : nat;
  sim_agents : list Agent;
  sim_society : Society;
  sim_parameters : Parameters;
  sim_time : number;
  sim_dt : number;
  sim_running : bool
}.

Module SimulatorClass.

Definition initializeAgents {H} (numAgents : nat) : M H (list Agent) :=
  createAgents 0.5 0 numAgents.

Definition setupNeighborhoods `{MathHost} (agents : list Agent) : list Agent :=
  setupNeighborhoods 0.1 agents.

Definition new {H} `{MathHost} (numAgents : nat) : M H Simulator :=
  agents <- initializeAgents numAgents ;;
  ret (mkSimulator numAgents (setupNeighborhoods agents) SocietyClass.new
                   newParameters 0 0.01 false).

Definition simulateInterculturalContacts {H} (this : Simulator) : M H (list Agent) :=
  simulateInterculturalContacts (sim_society this) (sim_agents this).

(** [step()], in the seven stages the source numbers. *)
Definition step {H} `{MathHost} (this : Simulator) : M H Simulator :=
  agents1 <- simulateInterculturalContacts this ;;
  let agentDerivatives :=
    map (fun agent =>
           computeAgentDerivatives agents1 agent (sim_society this) (sim_parameters this))
        agents1 in
  let macroDerivatives :=
    computeMacroDerivatives agents1 (sim_society this) (sim_parameters this) in
  let agents2 := updateAgents agentDerivatives (sim_dt this) agents1 in
  let society2 :=
    SocietyClass.update agents2 (sim_society this) macroDerivatives (sim_dt this) in
  let time2 := sim_time this + sim_dt this in
  let society3 :=
    if strictEq (remainder (Math_floor (time2 / sim_dt this)) 10) 0
    then SocietyClass.addToHistory agents2 society2 time2
    else society2 in
  ret (mkSimulator (sim_numAgents this) agents2 society3 (sim_parameters this)
                   time2 (sim_dt this) (sim_running this)).

Definition start (this : Simulator) : Simulator :=
  mkSimulator (sim_numAgents this) (sim_agents this) (sim_society this)
              (sim_parameters this) (sim_time this) (sim_dt this) true.

Definition pause (this : Simulator) : Simulator :=
  mkSimulator (sim_numAgents this) (sim_agents this) (sim_society this)
              (sim_parameters this) (sim_time this) (sim_dt this) false.

(** [reset(numAgents = null)] *)
Definition reset {H} `{MathHost} (this : Simulator) (numAgents : option nat)
    : M H Simulator :=
  match numAgents with
  | Some n =>
      if negb (Nat.eqb n (sim_numAgents this)) then
        agents <- initializeAgents n ;;
        ret (mkSimulator n (setupNeighborhoods agents) SocietyClass.new
                         (sim_parameters this) 0 (sim_dt this) false)
      else
        world <- SocietyClass.reset (sim_agents this) (sim_society this)
                   (institutionalQuality (sim_society this)) (gini (sim_society this))
                   (externalThreat (sim_society this)) ;;
        ret (mkSimulator (sim_numAgents this) world.1 world.2 (sim_parameters this)
                         0 (sim_dt this) false)
  | None =>
      world <- SocietyClass.reset (sim_agents this) (sim_society this)
                 (institutionalQuality (sim_society this)) (gini (sim_society this))
                 (externalThreat (sim_society this)) ;;
      ret (mkSimulator (sim_numAgents this) world.1 world.2 (sim_parameters this)
                       0 (sim_dt this) false)
  end.

Definition setTimeStep (this : Simulator) (dt : number) : Simulator :=
  mkSimulator (sim_numAgents this) (sim_agents this) (sim_society this)
              (sim_parameters this) (sim_time this) dt (sim_running this).

(** [setInitialCondition(variable, value)] *)
Definition setInitialCondition (this : Simulator) (variable : string) (value : number)
    : Simulator :=
  let society := sim_society this in
  let society1 :=
    if String.eqb variable "institutionalQuality" then
      mkSociety (gini society) (precarity society) (diversity society) value
                (polarization society) (perceivedThreat society) (externalThreat society)
                (history society)
    else if String.eqb variable "gini" then
      mkSociety value (precarity society) (diversity society)
                (institutionalQuality society) (polarization society)
                (perceivedThreat society) (externalThreat society) (history society)
    else if String.eqb variable "externalThreat" then
      mkSociety (gini society) (precarity society) (diversity society)
                (institutionalQuality society) (polarization society)
                (perceivedThreat society) value (history society)
    else society in
  mkSimulator (sim_numAgents this) (sim_agents this) society1 (sim_parameters this)
              (sim_time this) (sim_dt this) (sim_running this).

(** [if (param in this.parameters) this.parameters[param] = value] *)
Definition setParameter (this : Simulator) (param : string) (value : number) : Simulator :=
  if hasProperty (sim_parameters this) param then
    mkSimulator (sim_numAgents this) (sim_agents this) (sim_society this)
                (setProperty (sim_parameters this) param value)
                (sim_time this) (sim_dt this) (sim_running this)
  else this.

End SimulatorClass.

(** ** sensitivity.js *)

(** The body of the loop of [singleRealization] up to the stop test:
    contacts, derivatives of every agent and of the society, then the updates. *)
Definition integrate {H} `{MathHost} (params : Parameters) (dt : number)
    (agents : list Agent) (society : Society) : M H (list Agent * Society) :=
  agents1 <- simulateInterculturalContacts society agents ;;
  let agentDerivatives :=
    map (fun agent => computeAgentDerivatives agents1 agent society params) agents1 in
  let macroDerivatives := computeMacroDerivatives agents1 society params in
  let agents2 := updateAgents agentDerivatives dt agents1 in
  let society2 := SocietyClass.update agents2 society macroDerivatives dt in
  ret (agents2, society2).

(** The early-stop test of a realization, on the state a step has produced. *)
Definition earlyStop (agents : list Agent) (society : Society) : bool :=
  let psi := SocietyClass.getOrderParameter agents society in
  atMost (institutionalQuality society) 0.05 || atMost 0.95 psi.

(** [for (let step = 0; step < numSteps; step++) { ...; if (...) break; }] *)
Fixpoint realizationLoop {H} `{MathHost} (params : Parameters) (dt : number) (numSteps : nat)
    (agents : list Agent) (society : Society) : M H (list Agent * Society) :=
  match numSteps with
  | O => ret (agents, society)
  | S remaining =>
      world <- integrate params dt agents society ;;
      if earlyStop world.1 world.2 then ret world
      else realizationLoop params dt remaining world.1 world.2
  end.

Definition singleRealization {H} `{MathHost} (params : Parameters) (tMax dt : number)
    (numAgents : nat) : M H number :=
  created <- createAgents 1 0 numAgents ;;
  let agents := setupNeighborhoods 0.2 created in
  let society := SocietyClass.new in
  let numSteps := tripCount (Math_floor (tMax / dt)) in
  world <- realizationLoop params dt numSteps agents society ;;
  ret (SocietyClass.getOrderParameter world.1 world.2).

(** [for (...) psiValues.push(singleRealization(params, tMax, dt, numAgents))] *)
Fixpoint realizations {H} `{MathHost} (params : Parameters) (tMax dt : number)
    (numAgents count : nat) : M H (list number) :=
  match count with
  | O => ret []
  | S count' =>
      psi <- singleRealization params tMax dt numAgents ;;
      rest <- realizations params tMax dt numAgents count' ;;
      ret (psi :: rest)
  end.

Definition average (psiValues : list number) (numRealizations : nat) : number :=
  sumOf psiValues / ofNat numRealizations.

Definition varianceOf (psiValues : list number) (avgPsi : number) (numRealizations : nat) : number :=
  fold_left (fun sum val => sum + Math_pow2 (val - avgPsi)) psiValues 0
  / ofNat numRealizations.

(** [simulateToSteadyState(params, tMax = 100, dt = 0.01, numAgents = 100,
    numRealizations = 10)]; an omitted argument is [None]. *)
Definition simulateToSteadyState {H} `{MathHost} (params : Parameters)
    (tMax dt : option number) (numAgents numRealizations : option nat) : M H number :=
  let tMax := default (Num 100) tMax in
  let dt := default (Num 0.01) dt in
  let numAgents := default 100%nat numAgents in
  let numRealizations := default 10%nat numRealizations in
  psiValues <- realizations params tMax dt numAgents numRealizations ;;
  let avgPsi := average psiValues numRealizations in
  let variance := varianceOf psiValues avgPsi numRealizations in
  let stdDev := Math_sqrt variance in
  (if lessThan 0.05 stdDev then console_log (HighVariance stdDev avgPsi psiValues) else ret tt) ;;;
  ret avgPsi.

(** *** The root search

    [findParameterForPsi] and [analyzeSensitivity] evaluate the order
    parameter only through [simulateToSteadyState(params, 100, 0.02, 75)].
    The section takes that evaluation as [simulate]; the exported functions
    instantiate it below. *)

Record SearchState := mkSearchState {
  low : number;
  high : number;
  bestCandidate : number;
  iteration : nat;
  params : Parameters
}.

(** One entry of [parametersToAnalyze], and one entry of [results]. *)
Record ParameterRange := mkParameterRange {
  key : string;
  range_min : number;
  range_max : number;
  virtuous : bool
}.

Record Zone := mkZone {
  autocratic : number;
  democratic : number;
  zone_min : number;
  zone_max : number;
  zone_virtuous : bool
}.

(** [results[key] = zone] on an object whose entries keep insertion order. *)
Fixpoint objectSet (results : list (string * Zone)) (k : string) (zone : Zone)
    : list (string * Zone) :=
  match results with
  | [] => [(k, zone)]
  | (k', z') :: rest =>
      if String.eqb k' k then (k', zone) :: rest else (k', z') :: objectSet rest k zone
  end.

Definition parametersToAnalyze : list ParameterRange :=
  [ mkParameterRange "beta1" 0 2 true;
    mkParameterRange "beta2" 0 2 false;
    mkParameterRange "beta3" 0 2 true;
    mkParameterRange "beta4" 0 2 false;
    mkParameterRange "mu1" 0 1 true;
    mkParameterRange "mu2" 0 1 false;
    mkParameterRange "mu3" 0 1 false ].

Definition maxIterations : nat := 30.

(** The test [satisfiesCondition] of the bisection loop. *)
Definition satisfiesCondition (targetPsi tolerance psiMid : number) : bool :=
  if strictEq targetPsi 0 then atMost psiMid (0 + tolerance)
  else atMost (targetPsi - tolerance) psiMid && atMost psiMid (targetPsi + tolerance).

Section Search.

Context {H : Type}.
Variable simulate : Parameters -> M H number.

(** One pass of the [while] body. *)
Definition bisectionStep (paramName : string) (targetPsi tolerance : number)
    (extremum : string) (isIncreasing : bool) (st : SearchState) : M H SearchState :=
  let mid := (low st + high st) / 2 in
  let params1 := setProperty (params st) paramName mid in
  psiMid <- simulate params1 ;;
  let bestCandidate1 :=
    if satisfiesCondition targetPsi tolerance psiMid then
      if String.eqb extremum "min" && lessThan mid (bestCandidate st) then mid
      else if String.eqb extremum "max" && lessThan (bestCandidate st) mid then mid
      else bestCandidate st
    else bestCandidate st in
  let low1 :=
    if isIncreasing then (if lessThan psiMid targetPsi then mid else low st)
    else (if lessThan psiMid targetPsi then low st else mid) in
  let high1 :=
    if isIncreasing then (if lessThan psiMid targetPsi then high st else mid)
    else (if lessThan psiMid targetPsi then mid else high st) in
  ret (mkSearchState low1 high1 bestCandidate1 (S (iteration st)) params1).

(** [while (iteration < maxIterations && (high - low) > tolerance * 0.01)];
    [remaining] is [maxIterations - iteration]. *)
Fixpoint bisection (paramName : string) (targetPsi tolerance : number) (extremum : string)
    (isIncreasing : bool) (remaining : nat) (st : SearchState) : M H SearchState :=
  match remaining with
  | O => ret st
  | S remaining' =>
      if lessThan (tolerance * 0.01) (high st - low st) then
        st1 <- bisectionStep paramName targetPsi tolerance extremum isIncreasing st ;;
        bisection paramName targetPsi tolerance extremum isIncreasing remaining' st1
      else ret st
  end.

(** [findParameterForPsi(paramName, targetPsi, baseParams, pMin, pMax,
    tolerance = 0.01, extremum = 'min')] *)
Definition findParameterForPsiWith (paramName : string) (targetPsi : number)
    (baseParams : Parameters) (pMin pMax : number) (tolerance : option number)
    (extremum : option string) : M H number :=
  let tolerance := default (Num 0.01) tolerance in
  let extremum := default "min" extremum in
  let params0 := baseParams in
  let params1 := setProperty params0 paramName pMin in
  psiMin <- simulate params1 ;;
  let params2 := setProperty params1 paramName pMax in
  psiMax <- simulate params2 ;;
  let isIncreasing := lessThan psiMin psiMax in
  console_log (SearchStart paramName targetPsi extremum pMin psiMin pMax psiMax isIncreasing) ;;;
  let minPsiValue := Math_min psiMin psiMax in
  let maxPsiValue := Math_max psiMin psiMax in
  if lessThan targetPsi minPsiValue || lessThan maxPsiValue targetPsi then
    let result :=
      if String.eqb extremum "min" then (if isIncreasing then pMin else pMax)
      else (if isIncreasing then pMax else pMin) in
    console_log (OutOfReach targetPsi minPsiValue maxPsiValue result) ;;;
    ret result
  else
    let start :=
      mkSearchState pMin pMax (if String.eqb extremum "min" then pMax else pMin) 0 params2 in
    st <- bisection paramName targetPsi tolerance extremum isIncreasing maxIterations start ;;
    let finalMid := (low st + high st) / 2 in
    let params3 := setProperty (params st) paramName finalMid in
    psiFinal <- simulate params3 ;;
    let result :=
      if lessThan (Math_abs (psiFinal - targetPsi)) tolerance then
        if String.eqb extremum "min" then Math_min (bestCandidate st) finalMid
        else Math_max (bestCandidate st) finalMid
      else
        if negb (strictEq (bestCandidate st)
                          (if String.eqb extremum "min" then high st else low st))
        then bestCandidate st else finalMid in
    console_log (Found paramName result psiFinal (iteration st)) ;;;
    ret result.

(** The body of the sweep for the parameter at index [i]. *)
Definition analyzeParameter (baseParams : Parameters)
    (progressCallback : option (string -> nat -> nat -> H)) (total : nat)
    (results : list (string * Zone)) (i : nat) (param : ParameterRange)
    : M H (list (string * Zone)) :=
  console_log (ParameterHeader (key param) (virtuous param) (range_min param) (range_max param)) ;;;
  match progressCallback with
  | Some callback => emit (Invoke (callback (key param) (i + 1)%nat total))
  | None => ret tt
  end ;;;
  pair <-
    (if virtuous param then
       pAutocratic <- findParameterForPsiWith (key param) 0 baseParams
                        (range_min param) (range_max param) (Some (Num 0.02)) (Some "max") ;;
       pDemocratic <- findParameterForPsiWith (key param) 0.3 baseParams
                        (range_min param) (range_max param) (Some (Num 0.02)) (Some "min") ;;
       ret (pAutocratic, pDemocratic)
     else
       pAutocratic <- findParameterForPsiWith (key param) 0 baseParams
                        (range_min param) (range_max param) (Some (Num 0.02)) (Some "min") ;;
       pDemocratic <- findParameterForPsiWith (key param) 0.3 baseParams
                        (range_min param) (range_max param) (Some (Num 0.02)) (Some "max") ;;
       ret (pAutocratic, pDemocratic)) ;;
  let pAutocratic := pair.1 in
  let pDemocratic := pair.2 in
  let zoneWidth := Math_abs (pDemocratic - pAutocratic) in
  console_log (ZoneResult (key param) pAutocratic pDemocratic zoneWidth) ;;;
  ret (objectSet results (key param)
         (mkZone pAutocratic pDemocratic
                 (Math_min pAutocratic pDemocratic) (Math_max pAutocratic pDemocratic)
                 (virtuous param))).

(** [for (let i = 0; i < parametersToAnalyze.length; i++) { ... }] from index [i] on. *)
Fixpoint sweep (baseParams : Parameters)
    (progressCallback : option (string -> nat -> nat -> H)) (total : nat)
    (results : list (string * Zone)) (i : nat) (todo : list ParameterRange)
    : M H (list (string * Zone)) :=
  match todo with
  | [] => ret results
  | param :: todo' =>
      results1 <- analyzeParameter baseParams progressCallback total results i param ;;
      sweep baseParams progressCallback total results1 (S i) todo'
  end.

Definition tableRow (entry : string * Zone) : string * bool * number * number * number :=
  (entry.1, zone_virtuous entry.2, autocratic entry.2, democratic entry.2,
   Math_abs (democratic entry.2 - autocratic entry.2)).

(** [analyzeSensitivity(baseParams, progressCallback = null)] *)
Definition analyzeSensitivityWith (baseParams : Parameters)
    (progressCallback : option (string -> nat -> nat -> H)) : M H (list (string * Zone)) :=
  let total := length parametersToAnalyze in
  console_log AnalysisStart ;;;
  results <- sweep baseParams progressCallback total [] 0 parametersToAnalyze ;;
  console_log AnalysisDone ;;;
  emit (Table (map tableRow results)) ;;;
  ret results.

End Search.

(** The evaluation the module hard-wires: 75 agents, [tMax = 100],
    [dt = 0.02], the default number of realizations. *)
Definition steadyStatePsi {H} `{MathHost} (params : Parameters) : M H number :=
  simulateToSteadyState params (Some (Num 100)) (Some (Num 0.02)) (Some 75%nat) None.

Definition findParameterForPsi {H} `{MathHost} (paramName : string) (targetPsi : number)
    (baseParams : Parameters) (pMin pMax : number) (tolerance : option number)
    (extremum : option string) : M H number :=
  findParameterForPsiWith steadyStatePsi paramName targetPsi baseParams pMin pMax
                          tolerance extremum.

Definition analyzeSensitivity {H} `{MathHost} (baseParams : Parameters)
    (progressCallback : option (string -> nat -> nat -> H)) : M H (list (string * Zone)) :=
  analyzeSensitivityWith steadyStatePsi baseParams progressCallback.

(** ** Vocabulary of the properties *)

(** [x] is a number (not [NaN], not an infinity) between [lo] and [hi]. *)
Definition within (lo hi : Q) (x : number) : Prop :=
  match x with
  | Num q => (lo <= q <= hi)%Q
  | _ => False
  end.

(** The declared domains of the evolved fields of an agent. *)
Definition inDomain (a : Agent) : Prop :=
  within (-1) 1 (democraticAdherence a) /\
  within (-1) 1 (toleranceCultural a) /\
  within 0 1 (security a) /\
  within 0 1 (permeability a) /\
  within 0 1 (civicEnergy a) /\
  atMost 0 (wealth a) = true.

(** The five increments [derivative * dt] of an [update] are numbers:
    neither the derivatives nor [dt] is [NaN], and no infinite value meets
    a zero. *)
Definition numericIncrements (d : AgentDerivatives) (dt : number) : Prop :=
  isNaN (dAlpha d * dt) = false /\
  isNaN (dTauC d * dt) = false /\
  isNaN (dSecurity d * dt) = false /\
  isNaN (dPermeability d * dt) = false /\
  isNaN (dCivicEnergy d * dt) = false.

(** Successive [update] calls on one agent, each with its own derivatives
    and time step. *)
Definition updates (a : Agent) (calls : list (AgentDerivatives * number)) : Agent :=
  fold_left (fun a call => AgentClass.update a call.1 call.2) calls a.

(** Two agent objects that differ at most in the two contact fields. *)
Definition sameButContacts (a b : Agent) : Prop :=
  b = AgentClass.setContacts a (positiveContacts b) (negativeContacts b).

(** [k] integration steps in a row, without any stopping test. *)
Fixpoint integrateTimes {H} `{MathHost} (params : Parameters) (dt : number) (k : nat)
    (agents : list Agent) (society : Society) : M H (list Agent * Society) :=
  match k with
  | O => ret (agents, society)
  | S k' =>
      world <- integrate params dt agents society ;;
      integrateTimes params dt k' world.1 world.2
  end.

(** The population and society a realization starts from. *)
Definition initialWorld {H} `{MathHost} (numAgents : nat) : M H (list Agent * Society) :=
  created <- createAgents 1 0 numAgents ;;
  ret (setupNeighborhoods 0.2 created, SocietyClass.new).


(** Everything in a simulator but its parameters. *)
Definition sameButParameters (a b : Simulator) : Prop :=
  sim_numAgents a = sim_numAgents b /\
  sim_agents a = sim_agents b /\
  sim_society a = sim_society b /\
  sim_time a = sim_time b /\
  sim_dt a = sim_dt b /\
  sim_running a = sim_running b.

(** The bracket of a search lies in the range, and so does its candidate. *)
Definition bracketed (pMin pMax : Q) (st : SearchState) : Prop :=
  within pMin pMax (low st) /\ within pMin pMax (high st) /\
  atMost (low st) (high st) = true /\
  within pMin pMax (bestCandidate st).

(** The endpoint returned for a target out of reach. *)
Definition endpointFor (extremum : string) (isIncreasing : bool) (pMin pMax : number) : number :=
  if String.eqb extremum "min" then (if isIncreasing then pMin else pMax)
  else (if isIncreasing then pMax else pMin).

(** The endpoint whose order parameter is nearest to the target, as the
    first version of the search picked it. *)
Definition nearestEndpoint (targetPsi psiMin psiMax pMin pMax : number) : number :=
  if lessThan (Math_abs (targetPsi - psiMin)) (Math_abs (targetPsi - psiMax))
  then pMin else pMax.

(** The absorbing condition of a realization: collapse of the institutions
    or a stable democracy. *)
Definition absorbed (agents : list Agent) (society : Society) : Prop :=
  atMost (institutionalQuality society) 0.05 = true \/
  atMost 0.95 (SocietyClass.getOrderParameter agents society) = true.

(** A computation that writes nothing and leaves the entropy source alone. *)
Definition silent {H A} (m : M H A) : Prop :=
  forall rt, outputs (m rt).2 = outputs rt /\ entropy (m rt).2 = entropy rt.

(** The standard deviation [simulateToSteadyState] computes from its realizations. *)
Definition stdDevOf `{MathHost} (psiValues : list number) (numRealizations : nat) : number :=
  Math_sqrt (varianceOf psiValues (average psiValues numRealizations) numRealizations).

(** The outputs that mark the progress of a sweep: the start of a search
    with the arguments it received, a call of the progress callback, and the
    line that closes a parameter once both its searches have returned. *)
Inductive Mark (H : Type) :=
| SearchMark (paramName : string) (targetPsi : number) (extremum : string)
| InvokeMark (h : H)
| ZoneMark (key : string).
Arguments SearchMark {H} paramName targetPsi extremum.
Arguments InvokeMark {H} h.
Arguments ZoneMark {H} key.

Definition markOf {H} (o : Output H) : option (Mark H) :=
  match o with
  | Console (SearchStart paramName targetPsi extremum _ _ _ _ _) =>
      Some (SearchMark paramName targetPsi extremum)
  | Console (ZoneResult key _ _ _) => Some (ZoneMark key)
  | Invoke h => Some (InvokeMark h)
  | _ => None
  end.

Definition marks {H} (l : list (Output H)) : list (Mark H) := omap markOf l.

(** The searches among the marks, as (parameter, target, extremum). *)
Definition searchOf {H} (m : Mark H) : option (string * number * string) :=
  match m with
  | SearchMark paramName targetPsi extremum => Some (paramName, targetPsi, extremum)
  | _ => None
  end.

Definition searches {H} (l : list (Output H)) : list (string * number * string) :=
  omap searchOf (marks l).

(** A computation that adds exactly the marks [ms], whatever it returns. *)
Definition emits {H A} (m : M H A) (ms : list (Mark H)) : Prop :=
  forall rt, marks (outputs (m rt).2) = marks (outputs rt) ++ ms.

(** The marks of one parameter of the sweep, and of the parameters from
    index [i] on. *)
Definition parameterMarks {H} (progressCallback : option (string -> nat -> nat -> H))
    (total i : nat) (param : ParameterRange) : list (Mark H) :=
  match progressCallback with
  | Some callback => [InvokeMark (callback (key param) (i + 1)%nat total)]
  | None => []
  end ++
  [ SearchMark (key param) 0 (if virtuous param then "max" else "min");
    SearchMark (key param) 0.3 (if virtuous param then "min" else "max");
    ZoneMark (key param) ].

Fixpoint sweepMarks {H} (progressCallback : option (string -> nat -> nat -> H))
    (total i : nat) (todo : list ParameterRange) : list (Mark H) :=
  match todo with
  | [] => []
  | param :: todo' =>
      parameterMarks progressCallback total i param
      ++ sweepMarks progressCallback total (S i) todo'
  end.

(** Every call of the callback comes after the line closing the parameter it
    names: [closed] lists the parameters closed so far. *)
Fixpoint reportsAfterCompletion (closed : list string)
    (ms : list (Mark (string * nat * nat))) : bool :=
  match ms with
  | [] => true
  | InvokeMark (name, _, _) :: ms' =>
      bool_decide (name ∈ closed) && reportsAfterCompletion closed ms'
  | ZoneMark name :: ms' => reportsAfterCompletion (name :: closed) ms'
  | SearchMark _ _ _ :: ms' => reportsAfterCompletion closed ms'
  end.

(** The contract of [Math.random]: every draw is in [[0, 1)]. *)
Definition wellSeeded {H} (rt : Runtime H) : Prop :=
  forall n, (0 <= entropy rt n < 1)%Q.

(** The runtimes the [count] successive realizations of a call start from:
    each realization starts where the one before it ended. *)
Fixpoint realizationStarts {H} `{MathHost} (params : Parameters) (tMax dt : number)
    (numAgents count : nat) (rt : Runtime H) : list (Runtime H) :=
  match count with
  | O => []
  | S count' =>
      rt :: realizationStarts params tMax dt numAgents count'
              (singleRealization params tMax dt numAgents rt).2
  end.

(** [rt'] is at the same position of the entropy source as [rt] and holds
    the same draws from there up to position [upto]. *)
Definition sameDraws {H} (rt rt' : Runtime H) (upto : nat) : Prop :=
  draws rt' = draws rt /\
  forall n, (draws rt <= n < upto)%nat -> entropy rt' n = entropy rt n.

(** A computation that runs on a block of draws of its own: it takes its
    draws from the position it starts at on and leaves the source as it is,
    and the draws it has taken decide what it returns and how many it takes,
    whatever was drawn before, whatever comes after and whatever was
    emitted. *)
Definition ownDraws {H A} (m : M H A) : Prop :=
  forall rt,
    (draws rt <= draws (m rt).2)%nat /\
    entropy (m rt).2 = entropy rt /\
    forall rt', sameDraws rt rt' (draws (m rt).2) ->
                (m rt').1 = (m rt).1 /\ draws (m rt').2 = draws (m rt).2.

(** Realizations that are independent of one another: they run one after
    the other on consecutive blocks of draws of one entropy source, and the
    value of each is decided by its own block. *)
Definition independentRuns {H A} (run : M H A) (starts : list (Runtime H)) : Prop :=
  forall i s,
    starts !! i = Some s ->
    (draws s <= draws (run s).2)%nat /\
    (forall s', starts !! S i = Some s' ->
                draws s' = draws (run s).2 /\ entropy s' = entropy s) /\
    (forall rt', sameDraws s rt' (draws (run s).2) -> (run rt').1 = (run s).1).

(** Half of [Number.MAX_VALUE]: the sum of two numbers of at most that
    magnitude does not overflow. *)
Definition HALF_MAX : Q := MAX_VALUE / 2.

(** ** Sample inputs *)

(** A callback that hands back its three arguments. *)
Definition recordProgress (paramName : string) (current total : nat)
    : string * nat * nat :=
  (paramName, current, total).

(** A runtime with a constant entropy source and nothing emitted yet. *)
Definition quietRuntime {H} : Runtime H := mkRuntime (fun _ => 1 # 2) 0 [].

(** A synthetic evaluation: the order parameter is the value of one parameter. *)
Definition linearPsi {H} (name : string) (params : Parameters) : M H number :=
  ret (field params name).

(** A synthetic evaluation that stays low over the whole range:
    0.1 + p / 20 for the parameter [name]. *)
Definition flatPsi {H} (name : string) (params : Parameters) : M H number :=
  ret (0.1 + field params name * 0.05).

Definition sampleAgent : Agent :=
  mkAgent 0 0 0 0.5 0.5 0.5 0 0 0 0.5 0.5 0 0 0 [].

Definition sampleCalls : list (AgentDerivatives * number) :=
  [ (mkAgentDerivatives 100 (-100) 3 (-3) 1, Num 0.5);
    (mkAgentDerivatives (-7) 2 (-40) 9 (-1), Num 2) ].

(** A simulator without agents, as [new Simulator(0)] builds it. *)
Definition emptySimulator : Simulator :=
  mkSimulator 0 [] SocietyClass.new newParameters 0 0.01 false.


(** An entropy source under which successive one-agent populations get the
    adherences -0.02 and +0.02 in turn: the eleventh draw of a realization
    is the adherence of its only agent. *)
Definition alternatingEntropy (n : nat) : Q :=
  if Nat.eqb (n mod 11) 10 then (if Nat.even (n / 11) then 0.49 else 0.51) else 1 # 2.

Definition alternatingRuntime {H} : Runtime H := mkRuntime alternatingEntropy 0 [].

(** A call with one agent and no integration step. *)
Definition snapshotCall (rt : Runtime unit) : number * Runtime unit :=
  @simulateToSteadyState unit RationalHost newParameters (Some (Num 0)) (Some (Num 1)) (Some 1%nat)
                         None rt.

Definition snapshotRealizations (rt : Runtime unit) : list number :=
  (@realizations unit RationalHost newParameters 0 1 1 10 rt).1.

(** Parameters under which inequality ruins the institutions within one step. *)
Definition corruptParameters : Parameters := <["mu3" := Num 100]> newParameters.

(** [new Simulator(3)] under the constant entropy source, and its first step. *)
Definition smallSimulator : Simulator * Runtime unit :=
  @SimulatorClass.new unit RationalHost 3 quietRuntime.

Definition smallSimulatorStepped : Simulator * Runtime unit :=
  @SimulatorClass.step unit RationalHost smallSimulator.1 smallSimulator.2.

(** An update whose adherence derivative is not a number, and one whose
    infinite adherence derivative meets a time step of zero. *)
Definition undefinedCall : AgentDerivatives * number :=
  (mkAgentDerivatives NaN 0 0 0 0, Num 0.5).

Definition infiniteCall : AgentDerivatives * number :=
  (mkAgentDerivatives Infinity 0 0 0 0, Num 0).

(** A synthetic evaluation that returns [v] whatever the parameters. *)
Definition constantPsi {H} (v : number) (params : Parameters) : M H number :=
  ret v.

(** A synthetic evaluation with a jump: -0.5 while the parameter [name] is
    below 1.5, and 0.5 from there on. *)
Definition stepPsi {H} (name : string) (params : Parameters) : M H number :=
  ret (if lessThan (field params name) 1.5 then Num (-0.5) else Num 0.5).

(** The state a search for a ['max'] extremum over [[0, 2]] enters its loop
    with. *)
Definition freshBracket : SearchState := mkSearchState 0 2 0 0 newParameters.

(** A range near the top of the doubles, and a target inside it. *)
Definition hugeMin : Q := inject_Z (10 ^ 308).
Definition hugeMax : Q := inject_Z (17 * 10 ^ 307).
Definition hugeTarget : Q := inject_Z (15 * 10 ^ 307).

(** ** Numbers: comparison, overflow and clamping *)

Lemma Qltb_lt (a b : Q) : Qltb a b = true <-> (a < b)%Q.
Proof.
  unfold Qltb. rewrite negb_true_iff.
  split; intros Hab.
  - apply Qnot_le_lt. intros Hle. apply Qle_bool_iff in Hle. congruence.
  - destruct (Qle_bool b a) eqn:E; [|reflexivity].
    apply Qle_bool_iff in E. lra.
Qed.

Lemma Qltb_ge (a b : Q) : Qltb a b = false <-> (b <= a)%Q.
Proof.
  unfold Qltb. rewrite negb_false_iff. apply Qle_bool_iff.
Qed.

Lemma Qle_bool_gt (a b : Q) : Qle_bool a b = false <-> (b < a)%Q.
Proof.
  split; intros Hab.
  - apply Qnot_le_lt. intros Hle. apply Qle_bool_iff in Hle. congruence.
  - destruct (Qle_bool a b) eqn:E; [|reflexivity].
    apply Qle_bool_iff in E. lra.
Qed.

(** Case analysis on the comparisons of rationals in the goal. *)
Ltac compare :=
  repeat match goal with
         | |- context [Qltb ?a ?b] =>
             let E := fresh "E" in
             destruct (Qltb a b) eqn:E;
             [apply Qltb_lt in E | apply Qltb_ge in E]
         | |- context [Qle_bool ?a ?b] =>
             let E := fresh "E" in
             destruct (Qle_bool a b) eqn:E;
             [apply Qle_bool_iff in E | apply Qle_bool_gt in E]
         end.

Lemma MAX_VALUE_large : (2 ^ 64 <= MAX_VALUE)%Q.
Proof. unfold MAX_VALUE. vm_compute. discriminate. Qed.

Lemma finish_Num (q : Q) : (- MAX_VALUE <= q <= MAX_VALUE)%Q -> finish q = Num q.
Proof.
  intros [Hlo Hhi]. unfold finish. compare; try reflexivity; lra.
Qed.

Lemma finish_small (q : Q) : (- 2 ^ 64 <= q <= 2 ^ 64)%Q -> finish q = Num q.
Proof.
  intros Hq. apply finish_Num. pose proof MAX_VALUE_large. lra.
Qed.

Lemma finish_numeric (q : Q) : isNaN (finish q) = false.
Proof. unfold finish. destruct (Qltb _ _); [reflexivity|]. destruct (Qltb _ _); reflexivity. Qed.

Lemma within_Num (lo hi : Q) (x : number) :
  within lo hi x <-> exists q, x = Num q /\ (lo <= q <= hi)%Q.
Proof.
  split.
  - destruct x as [q| | |]; simpl; try contradiction. intros Hq. exists q. auto.
  - intros (q & -> & Hq). exact Hq.
Qed.

Lemma within_atMost (lo hi : Q) (x : number) :
  within lo hi x -> atMost lo x = true /\ atMost x hi = true.
Proof.
  destruct x as [q| | |]; simpl; try contradiction.
  intros [Hlo Hhi]. split; apply Qle_bool_iff; assumption.
Qed.

Lemma add_numeric (lo hi : Q) (a b : number) :
  within lo hi a -> isNaN b = false -> isNaN (a + b) = false.
Proof.
  destruct a as [x| | |]; simpl; try contradiction. intros _.
  destruct b as [y| | |]; simpl; try discriminate; auto using finish_numeric.
Qed.

Lemma clamp_range (value : number) (lo hi : Q) :
  isNaN value = false -> (lo <= hi)%Q -> within lo hi (AgentClass.clamp value lo hi).
Proof.
  intros Hv Hlh. unfold AgentClass.clamp, Math_max, Math_min.
  destruct value as [v| | |]; try discriminate; simpl.
  - compare; simpl; compare; simpl; lra.
  - compare; simpl; lra.
  - lra.
Qed.

Lemma clamp_NaN (lo hi : number) : AgentClass.clamp NaN lo hi = NaN.
Proof.
  destruct lo, hi; reflexivity.
Qed.

Lemma floor_nonneg (w : number) :
  atMost 0 w = true -> atMost 0 (Math_max 0 w) = true.
Proof.
  destruct w as [q| | |]; simpl; try discriminate; auto.
  intros Hq. unfold Math_max. simpl. destruct (Qltb 0 q); simpl; [exact Hq|reflexivity].
Qed.

Lemma add_Num (x y : Q) : Num x + Num y = finish (x + y).
Proof. reflexivity. Qed.

Lemma sub_Num (x y : Q) : Num x - Num y = finish (x - y).
Proof. reflexivity. Qed.

Lemma mul_Num (x y : Q) : Num x * Num y = finish (x * y).
Proof. reflexivity. Qed.

Lemma div_Num (x y : Q) : ~ (y == 0)%Q -> Num x / Num y = finish (x / y).
Proof.
  intros Hy. unfold div.
  destruct (Qeq_bool y 0) eqn:E; [|reflexivity].
  apply Qeq_bool_iff in E. contradiction.
Qed.

(** ** Effects: running a computation, silence, marks *)

Lemma bind_run {H A B} (m : M H A) (k : A -> M H B) (rt : Runtime H) :
  bind m k rt = k (m rt).1 (m rt).2.
Proof. unfold bind. destruct (m rt); reflexivity. Qed.

Lemma silent_ret {H A} (a : A) : silent (H:=H) (ret a).
Proof. intros rt. split; reflexivity. Qed.

Lemma silent_bind {H A B} (m : M H A) (k : A -> M H B) :
  silent m -> (forall a, silent (k a)) -> silent (bind m k).
Proof.
  intros Hm Hk rt. unfold bind.
  destruct (Hm rt) as [Ho He].
  destruct (m rt) as [a rt1]. simpl in *.
  destruct (Hk a rt1) as [Ho' He'].
  split; congruence.
Qed.

Lemma silent_random {H} : silent (H:=H) Math_random.
Proof. intros rt. split; reflexivity. Qed.

Ltac silence :=
  repeat match goal with
         | |- silent (ret _) => apply silent_ret
         | |- silent Math_random => apply silent_random
         | |- silent (bind _ _) => apply silent_bind; [|intros ?]
         | |- silent (if ?c then _ else _) => destruct c
         end.

Lemma silent_forEachM {H A B} (f : A -> M H B) (l : list A) :
  (forall a, silent (f a)) -> silent (forEachM f l).
Proof.
  intros Hf. induction l as [|a l IH]; simpl; silence; auto.
Qed.

Lemma wellSeeded_silent {H A} (m : M H A) (rt : Runtime H) :
  silent m -> wellSeeded rt -> wellSeeded (m rt).2.
Proof.
  intros Hm Hseed n. destruct (Hm rt) as [_ ->]. apply Hseed.
Qed.

Lemma emits_ret {H A} (a : A) : emits (H:=H) (ret a) [].
Proof. intros rt. simpl. symmetry. apply app_nil_r. Qed.

Lemma emits_silent {H A} (m : M H A) : silent m -> emits m [].
Proof. intros Hm rt. destruct (Hm rt) as [-> _]. symmetry. apply app_nil_r. Qed.

Lemma emits_emit {H} (o : Output H) :
  emits (emit o) (match markOf o with Some m => [m] | None => [] end).
Proof.
  intros rt. unfold emit, marks. simpl. rewrite omap_app. simpl.
  destruct (markOf o); reflexivity.
Qed.

Lemma emits_bind {H A B} (m : M H A) (k : A -> M H B) ms1 ms2 :
  emits m ms1 -> (forall a, emits (k a) ms2) -> emits (bind m k) (ms1 ++ ms2).
Proof.
  intros Hm Hk rt. unfold bind.
  specialize (Hm rt). destruct (m rt) as [a rt1]. simpl in Hm.
  rewrite (Hk a rt1), Hm. symmetry. apply app_assoc.
Qed.

Lemma emits_bind_l {H A B} (m : M H A) (k : A -> M H B) ms :
  emits m [] -> (forall a, emits (k a) ms) -> emits (bind m k) ms.
Proof. intros Hm Hk. apply (emits_bind m k [] ms Hm Hk). Qed.

Lemma emits_bind_r {H A B} (m : M H A) (k : A -> M H B) ms :
  emits m ms -> (forall a, emits (k a) []) -> emits (bind m k) ms.
Proof.
  intros Hm Hk. rewrite <- (app_nil_r ms). apply (emits_bind m k ms [] Hm Hk).
Qed.

(** ** Agent: the clamping invariant *)

(** One [update] of an agent whose fields are in their domains leaves them
    there as soon as its five increments are numbers. *)
Lemma update_inDomain (a : Agent) (d : AgentDerivatives) (dt : number) :
  inDomain a -> numericIncrements d dt -> inDomain (AgentClass.update a d dt).
Proof.
  intros (Ha & Ht & Hs & Hp & Hc & Hw) (Na & Nt & Ns & Np & Nc).
  unfold inDomain, AgentClass.update; simpl.
  repeat split;
    try (apply clamp_range; [eapply add_numeric; eassumption|lra]).
  apply floor_nonneg. exact Hw.
Qed.

(** An increment that is not a number leaves [NaN] in its field, whatever
    the bounds of the clamping. *)
Lemma clamp_undefined (lo hi : Q) (field inc lower upper : number) :
  within lo hi field -> isNaN inc = true ->
  AgentClass.clamp (field + inc) lower upper = NaN.
Proof.
  intros Hf Hn. destruct inc; try discriminate.
  destruct field; try contradiction. apply clamp_NaN.
Qed.

Lemma not_within_NaN (lo hi : Q) : ~ within lo hi NaN.
Proof. intros Hw. exact Hw. Qed.

(** The condition on the increments is the one the clamping needs: an
    [update] of an agent in its domains leaves it there exactly when the
    five increments are numbers. *)
Lemma update_inDomain_iff (a : Agent) (d : AgentDerivatives) (dt : number) :
  inDomain a -> (inDomain (AgentClass.update a d dt) <-> numericIncrements d dt).
Proof.
  intros Ha. split; [|apply update_inDomain; exact Ha].
  destruct Ha as (Ha & Ht & Hs & Hp & Hc & Hw).
  unfold inDomain, numericIncrements, AgentClass.update. simpl.
  intros (Ua & Ut & Us & Up & Uc & _).
  repeat split;
    match goal with
    | |- isNaN ?inc = false =>
        destruct (isNaN inc) eqn:E; [exfalso|reflexivity]
    end.
  - rewrite (clamp_undefined _ _ _ _ _ _ Ha E) in Ua. exact Ua.
  - rewrite (clamp_undefined _ _ _ _ _ _ Ht E) in Ut. exact Ut.
  - rewrite (clamp_undefined _ _ _ _ _ _ Hs E) in Us. exact Us.
  - rewrite (clamp_undefined _ _ _ _ _ _ Hp E) in Up. exact Up.
  - rewrite (clamp_undefined _ _ _ _ _ _ Hc E) in Uc. exact Uc.
Qed.

Lemma silent_new {H} id x y : silent (H:=H) (AgentClass.new id x y).
Proof. unfold AgentClass.new. silence. Qed.

(** The fields a constructor or a [reset] computes from one draw. *)
Lemma draw_within (e : Q) : (0 <= e < 1)%Q -> within 0 1 (Num e).
Proof. simpl. lra. Qed.

Lemma draw_centred (e : Q) : (0 <= e < 1)%Q -> within (-1) 1 (Num e * 2 - 1).
Proof.
  intros He. simpl. rewrite (finish_small (e * 2)) by lra. simpl.
  rewrite finish_small by lra. simpl. lra.
Qed.

(** A freshly constructed agent, and an agent after [reset], are in the
    declared domains as soon as the draws are in [[0, 1)]. *)
Lemma new_inDomain {H} id x y (rt : Runtime H) :
  wellSeeded rt -> inDomain (AgentClass.new id x y rt).1.
Proof.
  intros Hseed. unfold AgentClass.new, bind, Math_random, ret, inDomain.
  cbn [fst snd democraticAdherence toleranceCultural security permeability civicEnergy
       wealth entropy draws].
  repeat split; try (apply draw_centred; apply Hseed); try (apply (draw_within _ (Hseed _))).
  simpl. apply Qle_bool_iff. apply Hseed.
Qed.

Lemma reset_inDomain {H} (a : Agent) (rt : Runtime H) :
  wellSeeded rt -> inDomain (AgentClass.reset a rt).1.
Proof.
  intros Hseed. unfold AgentClass.reset, bind, Math_random, ret, inDomain.
  cbn [fst snd democraticAdherence toleranceCultural security permeability civicEnergy
       wealth entropy draws].
  repeat split; try (apply draw_centred; apply Hseed); try (apply (draw_within _ (Hseed _))).
  simpl. apply Qle_bool_iff. apply Hseed.
Qed.

(** C5, as the code has it.  For every agent whose evolved fields are in
    their domains, after any number of [update] calls whose increments
    [derivative * dt] are numbers (no [NaN] among the derivatives and the
    time steps, no infinite value multiplied by zero), democraticAdherence
    and toleranceCultural are in [-1, 1], security, permeability and
    civicEnergy in [0, 1], and wealth is non-negative. *)
Theorem update_preserves_domain (a : Agent) (calls : list (AgentDerivatives * number)) :
  inDomain a ->
  Forall (fun call => numericIncrements call.1 call.2) calls ->
  inDomain (updates a calls).
Proof.
  unfold updates. intros Ha Hcalls. revert a Ha.
  induction Hcalls as [|call calls Hcall _ IH]; intros a Ha; simpl.
  - exact Ha.
  - apply IH. apply update_inDomain; assumption.
Qed.

Lemma update_preserves_domain_witness :
  inDomain sampleAgent /\
  Forall (fun call => numericIncrements call.1 call.2) sampleCalls /\
  inDomain (updates sampleAgent sampleCalls).
Proof.
  assert (H0 : inDomain sampleAgent) by (unfold inDomain; simpl; repeat split; lra).
  assert (H1 : Forall (fun call => numericIncrements call.1 call.2) sampleCalls).
  { unfold sampleCalls, numericIncrements. repeat constructor. }
  split; [exact H0|]. split; [exact H1|].
  exact (update_preserves_domain sampleAgent sampleCalls H0 H1).
Defined.

(** C5, as the specification states it, fails: [Math.max] and [Math.min]
    return [NaN] on a [NaN] operand, so the clamping does not bring back a
    field whose increment is not a number.  An agent in its domains is
    left with the adherence [NaN] by one [update] whose adherence derivative
    is [NaN], and by one whose adherence derivative is infinite while [dt]
    is 0. *)
Lemma update_leaves_NaN :
  inDomain sampleAgent /\
  democraticAdherence (updates sampleAgent [undefinedCall]) = NaN /\
  ~ inDomain (updates sampleAgent [undefinedCall]) /\
  democraticAdherence (updates sampleAgent [infiniteCall]) = NaN /\
  ~ inDomain (updates sampleAgent [infiniteCall]).
Proof.
  split; [unfold inDomain; simpl; repeat split; lra|].
  split; [reflexivity|]. split.
  { intros (Ha & _). exact Ha. }
  split; [reflexivity|].
  intros (Ha & _). exact Ha.
Qed.

(** ** Simulator.setParameter *)

Lemma hasProperty_own (params : Parameters) (name : string) :
  is_Some (params !! name) -> hasProperty params name = true.
Proof.
  intros Hs. unfold hasProperty. rewrite bool_decide_eq_true_2 by exact Hs. reflexivity.
Qed.

Lemma setProperty_own (params : Parameters) (name : string) (value : number) :
  is_Some (params !! name) -> setProperty params name value = <[name := value]> params.
Proof.
  intros Hs. unfold setProperty.
  rewrite (bool_decide_eq_true_2 (is_Some (params !! name))) by exact Hs.
  rewrite andb_false_r. reflexivity.
Qed.

Lemma setProperty_other (params : Parameters) (name k : string) (value : number) :
  k <> name -> setProperty params name value !! k = params !! k.
Proof.
  intros Hk. unfold setProperty.
  destruct (_ && _); [reflexivity|]. apply lookup_insert_ne. congruence.
Qed.

(** What the guard of [setParameter] does: the call touches nothing but the
    parameters; with the name of a field, that field takes the value and no
    other field changes; with a name that is neither a field nor inherited,
    the simulator is left exactly as it was; whatever the name, every field
    keeps its value. *)
Lemma setParameter_guard (sim : Simulator) (param : string) (value : number) :
  let sim' := SimulatorClass.setParameter sim param value in
  sameButParameters sim sim' /\
  match sim_parameters sim !! param with
  | None =>
      (forall k, is_Some (sim_parameters sim !! k) ->
                 sim_parameters sim' !! k = sim_parameters sim !! k) /\
      (param ∉ inheritedProperties -> sim' = sim)
  | Some _ =>
      sim_parameters sim' !! param = Some value /\
      (forall k, k <> param -> sim_parameters sim' !! k = sim_parameters sim !! k)
  end.
Proof.
  cbv zeta. split.
  - unfold SimulatorClass.setParameter, sameButParameters.
    destruct (hasProperty _ _); simpl; repeat split; reflexivity.
  - destruct (sim_parameters sim !! param) as [old|] eqn:E.
    + assert (Hs : is_Some (sim_parameters sim !! param)) by (rewrite E; eauto).
      unfold SimulatorClass.setParameter. rewrite (hasProperty_own _ _ Hs). simpl.
      rewrite (setProperty_own _ _ _ Hs). split.
      * apply lookup_insert_eq.
      * intros k Hk. apply lookup_insert_ne. congruence.
    + split.
      * intros k [v Hk]. unfold SimulatorClass.setParameter.
        destruct (hasProperty _ _); simpl; [|reflexivity].
        apply setProperty_other. intros ->. congruence.
      * intros Hni. unfold SimulatorClass.setParameter, hasProperty.
        rewrite E. rewrite (bool_decide_eq_false_2 (is_Some None)) by (intros [? ?]; discriminate).
        rewrite (bool_decide_eq_false_2 _ Hni). reflexivity.
Qed.

Example setParameter_on_default_simulator :
  SimulatorClass.setParameter emptySimulator "omega" 3 = emptySimulator /\
  sim_parameters (SimulatorClass.setParameter emptySimulator "beta1" 1.5) !! "beta1"
    = Some (Num 1.5) /\
  sim_parameters (SimulatorClass.setParameter emptySimulator "beta1" 1.5) !! "mu3"
    = Some (Num 0.2).
Proof. repeat split; reflexivity. Qed.

(** C8 fails on the code.  [toString] is not a field of the Parameters
    object, yet the [in] test of the guard holds for it, a name the object
    inherits from its prototype: [setParameter('toString', 1)] stores an own
    property of that name, and the parameter set is no more what it was. *)
Theorem setParameter_inherited_name :
  let sim' := SimulatorClass.setParameter emptySimulator "toString" 1 in
  sim_parameters emptySimulator !! "toString" = None /\
  hasProperty (sim_parameters emptySimulator) "toString" = true /\
  sim_parameters sim' !! "toString" = Some (Num 1) /\
  sim_parameters sim' <> sim_parameters emptySimulator.
Proof.
  cbv zeta. split; [reflexivity|]. split; [reflexivity|]. split; [reflexivity|].
  intros Heq.
  assert (Hl : sim_parameters (SimulatorClass.setParameter emptySimulator "toString" 1)
               !! "toString" = sim_parameters emptySimulator !! "toString")
    by (rewrite Heq; reflexivity).
  discriminate Hl.
Qed.

(** ** One step is synchronous *)

Lemma map_lookup {A B} (f : A -> B) (l : list A) (i : nat) :
  map f l !! i = f <$> l !! i.
Proof.
  revert i. induction l as [|a l IH]; intros [|i]; simpl; auto.
Qed.

Lemma updateAt_lookup ds dt store i j :
  updateAt ds dt store i !! j =
  if decide (i = j) then
    match store !! j, ds !! j with
    | Some a, Some d => Some (AgentClass.update a d dt)
    | other, _ => other
    end
  else store !! j.
Proof.
  unfold updateAt. destruct (decide (i = j)) as [->|Hne].
  - destruct (store !! j) as [a|] eqn:Ea; [|rewrite Ea; reflexivity].
    destruct (ds !! j) as [d|] eqn:Ed; [|exact Ea].
    apply list_lookup_insert_eq. eapply lookup_lt_Some; eauto.
  - destruct (store !! i), (ds !! i); auto. apply list_lookup_insert_ne. exact Hne.
Qed.

(** The in-place loop over the indices [i, i + n). *)
Lemma updateLoop_lookup ds dt n :
  forall i store j,
    fold_left (updateAt ds dt) (seq i n) store !! j =
    if decide (i <= j < i + n)%nat then
      match store !! j, ds !! j with
      | Some a, Some d => Some (AgentClass.update a d dt)
      | other, _ => other
      end
    else store !! j.
Proof.
  induction n as [|n IH]; intros i store j; simpl.
  - destruct (decide _) as [Hr|_]; [lia|reflexivity].
  - rewrite IH. rewrite !updateAt_lookup.
    destruct (decide (S i <= j < S i + n)%nat) as [Hr|Hr].
    + destruct (decide (i = j)); [lia|].
      destruct (decide (i <= j < i + S n)%nat); [reflexivity|lia].
    + destruct (decide (i = j)) as [->|Hne].
      * destruct (decide (j <= j < j + S n)%nat); [reflexivity|lia].
      * destruct (decide (i <= j < i + S n)%nat); [lia|reflexivity].
Qed.

(** With the derivatives computed beforehand, the in-place loop is the
    simultaneous update of every agent from the store it started with. *)
Lemma updateAgents_map (f : Agent -> AgentDerivatives) dt store :
  updateAgents (map f store) dt store =
  map (fun agent => AgentClass.update agent (f agent) dt) store.
Proof.
  apply list_eq. intros j. unfold updateAgents.
  rewrite updateLoop_lookup, !map_lookup.
  destruct (store !! j) as [a|] eqn:Ea; simpl.
  - destruct (decide _) as [_|Hr]; [reflexivity|].
    apply lookup_lt_Some in Ea. lia.
  - destruct (decide _); reflexivity.
Qed.

Lemma drawContacts_same {H} society agent (rt : Runtime H) :
  sameButContacts agent (drawContacts society agent rt).1.
Proof.
  unfold drawContacts, bind, Math_random. cbn [fst snd entropy draws].
  destruct (lessThan (Num _) _); [destruct (lessThan 0 _)|]; reflexivity.
Qed.

Lemma contacts_same {H} society agents :
  forall rt : Runtime H,
    Forall2 sameButContacts agents (simulateInterculturalContacts society agents rt).1.
Proof.
  unfold simulateInterculturalContacts.
  induction agents as [|a agents IH]; intros rt; simpl.
  - constructor.
  - unfold bind.
    pose proof (drawContacts_same society a rt) as Ha.
    destruct (drawContacts society a rt) as [a1 rt1].
    pose proof (IH rt1) as Hrest.
    destruct (forEachM _ agents rt1) as [rest rt2]. simpl in *.
    constructor; assumption.
Qed.

(** What [integrate] returns, in terms of the store the contact pass left. *)
Lemma integrate_synchronous {H} `{MathHost} params dt agents society (rt : Runtime H) :
  let store1 := (simulateInterculturalContacts society agents rt).1 in
  let world := (integrate params dt agents society rt).1 in
  world.1 =
    map (fun agent =>
           AgentClass.update agent (computeAgentDerivatives store1 agent society params) dt)
        store1 /\
  world.2 =
    SocietyClass.update world.1 society (computeMacroDerivatives store1 society params) dt /\
  (integrate params dt agents society rt).2 =
    (simulateInterculturalContacts society agents rt).2.
Proof.
  cbv zeta. unfold integrate, bind.
  destruct (simulateInterculturalContacts society agents rt) as [store1 rt1]. simpl.
  rewrite updateAgents_map. auto.
Qed.

(** C6. Within one [Simulator.step], after the contact pass (which rewrites
    the two contact fields of each agent and nothing else), the five
    derivatives of every agent and the three macro derivatives are all
    evaluated on one and the same store and society, the ones the step
    started from; only then are agents and society written.  So the new value
    of agent i is a function of the pre-step store, never of another agent's
    updated value, and the macro derivatives read no updated agent. *)
Theorem step_synchronous {H} `{MathHost} (this : Simulator) (rt : Runtime H) :
  let society := sim_society this in
  let params := sim_parameters this in
  let store1 := (simulateInterculturalContacts society (sim_agents this) rt).1 in
  let macro := computeMacroDerivatives store1 society params in
  let this' := (SimulatorClass.step this rt).1 in
  Forall2 sameButContacts (sim_agents this) store1 /\
  sim_agents this' =
    map (fun agent =>
           AgentClass.update agent (computeAgentDerivatives store1 agent society params)
                             (sim_dt this))
        store1 /\
  institutionalQuality (sim_society this') =
    Math_max 0 (Math_min 1 (institutionalQuality society + dQ macro * sim_dt this)) /\
  polarization (sim_society this') =
    Math_max 0 (Math_min 1 (polarization society + dPhi macro * sim_dt this)) /\
  perceivedThreat (sim_society this') =
    Math_max 0 (Math_min 1 (perceivedThreat society + dM macro * sim_dt this)).
Proof.
  cbv zeta. split; [apply contacts_same|].
  unfold SimulatorClass.step, SimulatorClass.simulateInterculturalContacts, bind.
  destruct (simulateInterculturalContacts (sim_society this) (sim_agents this) rt)
    as [store1 rt1].
  cbn [fst snd ret sim_agents sim_society].
  rewrite updateAgents_map.
  split; [reflexivity|].
  destruct (strictEq _ _); simpl; auto.
Qed.

(** The first step of a three-agent simulator whose draws are all 1/2: every
    agent starts at adherence 0 with the two others as neighbours, no contact
    occurs, and the step moves each adherence by 0.47 * dt and the
    institutions by -0.14 * dt. *)
Example simulator_first_step :
  let sim' := smallSimulatorStepped.1 in
  map neighbors (sim_agents sim') = [[1; 2]; [0; 2]; [0; 1]]%nat /\
  forallb (fun a => strictEq (democraticAdherence a) 0.0047) (sim_agents sim') = true /\
  strictEq (institutionalQuality (sim_society sim')) 0.6986 = true /\
  strictEq (sim_time sim') 0.01 = true /\
  draws smallSimulatorStepped.2 = 36%nat.
Proof.
  split; [vm_compute; reflexivity|].
  split; [vm_compute; reflexivity|].
  split; [vm_compute; reflexivity|].
  split; vm_compute; reflexivity.
Qed.

(** ** A realization stops at the absorbing condition *)

Lemma silent_createAgents {H} scale count :
  forall i, silent (H:=H) (createAgents scale i count).
Proof.
  induction count as [|count IH]; intros i; simpl; silence; auto using silent_new.
Qed.

Lemma silent_drawContacts {H} society agent : silent (H:=H) (drawContacts society agent).
Proof. unfold drawContacts. silence. Qed.

Lemma silent_integrate {H} `{MathHost} params dt agents society :
  silent (H:=H) (integrate params dt agents society).
Proof.
  unfold integrate, simulateInterculturalContacts. silence.
  apply silent_forEachM. intros a. apply silent_drawContacts.
Qed.

Lemma silent_realizationLoop {H} `{MathHost} params dt numSteps :
  forall agents society, silent (H:=H) (realizationLoop params dt numSteps agents society).
Proof.
  induction numSteps as [|n IH]; intros agents society; simpl; silence; auto.
  apply silent_integrate.
Qed.

Lemma silent_singleRealization {H} `{MathHost} params tMax dt numAgents :
  silent (H:=H) (singleRealization params tMax dt numAgents).
Proof.
  unfold singleRealization. silence.
  - apply silent_createAgents.
  - apply silent_realizationLoop.
Qed.

Lemma earlyStop_absorbed agents society :
  earlyStop agents society = true <-> absorbed agents society.
Proof.
  unfold earlyStop, absorbed. rewrite orb_true_iff. reflexivity.
Qed.

(** The loop performs [k] steps, [k] being the first step whose outcome is
    absorbed, or the bound when there is none. *)
Lemma realizationLoop_stops {H} `{MathHost} params dt numSteps :
  forall agents society (rt : Runtime H),
  exists k,
    (k <= numSteps)%nat /\
    realizationLoop params dt numSteps agents society rt =
      integrateTimes params dt k agents society rt /\
    ((k < numSteps)%nat ->
       let w := (integrateTimes params dt k agents society rt).1 in
       absorbed w.1 w.2) /\
    (forall j, (0 < j < k)%nat ->
       let w := (integrateTimes params dt j agents society rt).1 in
       ~ absorbed w.1 w.2).
Proof.
  induction numSteps as [|n IH]; intros agents society rt.
  - exists 0%nat. repeat split; try lia; intros; lia.
  - simpl realizationLoop. unfold bind at 1.
    destruct (integrate params dt agents society rt) as [w1 rt1] eqn:Estep.
    destruct (earlyStop w1.1 w1.2) eqn:Estop.
    + exists 1%nat. split; [lia|]. split; [|split].
      * simpl. unfold bind. rewrite Estep. destruct w1; reflexivity.
      * intros _. simpl. unfold bind. rewrite Estep. simpl.
        apply earlyStop_absorbed. destruct w1; exact Estop.
      * intros j Hj. lia.
    + destruct (IH w1.1 w1.2 rt1) as (k & Hk & Hrun & Hstop & Hbefore).
      exists (S k). split; [lia|]. split; [|split].
      * rewrite Hrun. simpl. unfold bind. rewrite Estep. reflexivity.
      * intros Hlt. simpl. unfold bind. rewrite Estep. apply Hstop. lia.
      * intros [|j] Hj; [lia|].
        simpl. unfold bind. rewrite Estep.
        destruct j as [|j].
        -- simpl. intros Habs. apply earlyStop_absorbed in Habs. congruence.
        -- apply Hbefore. lia.
Qed.

(** C4. A realization integrates step after step from its initial
    population; once a step leaves institutionalQuality at or below 0.05, or
    the order parameter at or above 0.95, no further step is performed.  It
    performs exactly [k] steps, where [k] is the first step with that outcome,
    or [floor(tMax / dt)] when there is none, and returns the order parameter
    of the state reached after those [k] steps. *)
Theorem singleRealization_early_stop {H} `{MathHost} (params : Parameters)
    (tMax dt : number) (numAgents : nat) (rt : Runtime H) :
  let numSteps := tripCount (Math_floor (tMax / dt)) in
  let start := initialWorld numAgents rt in
  let after j := integrateTimes params dt j start.1.1 start.1.2 start.2 in
  exists k,
    (k <= numSteps)%nat /\
    singleRealization params tMax dt numAgents rt =
      (SocietyClass.getOrderParameter (after k).1.1 (after k).1.2, (after k).2) /\
    ((k < numSteps)%nat -> absorbed (after k).1.1 (after k).1.2) /\
    (forall j, (0 < j < k)%nat -> ~ absorbed (after j).1.1 (after j).1.2).
Proof.
  cbv zeta. unfold singleRealization, initialWorld, bind.
  destruct (createAgents 1 0 numAgents rt) as [created rt1].
  unfold ret. cbn [fst snd].
  destruct (realizationLoop_stops params dt (tripCount (Math_floor (tMax / dt)))
              (setupNeighborhoods 0.2 created) SocietyClass.new rt1)
    as (k & Hk & Hrun & Hstop & Hbefore).
  exists k. split; [exact Hk|]. split; [|split].
  - rewrite Hrun.
    destruct (integrateTimes _ _ k _ _ rt1) as [w rtk]. reflexivity.
  - exact Hstop.
  - exact Hbefore.
Qed.

(** The sum of [n] numbers of magnitude at most 1 stays far from overflow. *)
Lemma fold_add_within (l : list number) :
  Forall (within (-1) 1) l ->
  forall acc : Q,
    (- 2 ^ 64 <= acc - inject_Z (Z.of_nat (length l)))%Q ->
    (acc + inject_Z (Z.of_nat (length l)) <= 2 ^ 64)%Q ->
    exists s : Q,
      fold_left add l (Num acc) = Num s /\
      (acc - inject_Z (Z.of_nat (length l)) <= s
       <= acc + inject_Z (Z.of_nat (length l)))%Q.
Proof.
  induction 1 as [|x l Hx Hl IH]; intros acc Hlo Hhi.
  - exists acc. split; [reflexivity|].
    change (inject_Z (Z.of_nat (length (@nil number)))) with 0%Q. lra.
  - change (length (x :: l)) with (S (length l)) in *.
    rewrite Nat2Z.inj_succ in *. unfold Z.succ in *. rewrite inject_Z_plus in *.
    change (inject_Z 1) with 1%Q in *.
    assert (Hn : (0 <= inject_Z (Z.of_nat (length l)))%Q).
    { change 0%Q with (inject_Z 0). rewrite <- Zle_Qle. lia. }
    apply within_Num in Hx as (q & -> & Hq).
    cbn [fold_left]. rewrite add_Num, finish_small by lra.
    destruct (IH (acc + q)%Q) as (s & Hs & Hb); [lra|lra|].
    exists s. split; [exact Hs|lra].
Qed.

Lemma length_small (n : nat) :
  (n < 2 ^ 32)%nat -> (0 <= inject_Z (Z.of_nat n) <= 2 ^ 32)%Q.
Proof.
  intros Hn. split.
  - change 0%Q with (inject_Z 0). rewrite <- Zle_Qle. lia.
  - change (2 ^ 32)%Q with (inject_Z (2 ^ 32)). rewrite <- Zle_Qle.
    apply Nat2Z.inj_lt in Hn. rewrite Nat2Z.inj_pow in Hn. simpl Z.of_nat in Hn. lia.
Qed.

(** The mean of a field that lies in [[-1, 1]] for every agent: not a number
    for an empty population (zero over zero), in [[-1, 1]] otherwise. *)
Lemma getAverage_unit (agents : list Agent) (property : Agent -> number) :
  Forall (fun a => within (-1) 1 (property a)) agents ->
  (length agents < 2 ^ 32)%nat ->
  match agents with
  | [] => SocietyClass.getAverage agents property = NaN
  | _ => within (-1) 1 (SocietyClass.getAverage agents property)
  end.
Proof.
  intros Hall Hlen. destruct agents as [|a0 rest]; [reflexivity|].
  set (agents := a0 :: rest) in *.
  unfold SocietyClass.getAverage, sumOf, ofNat.
  pose proof (length_small _ Hlen) as [Hn0 Hn1].
  assert (Hpos : (1 <= inject_Z (Z.of_nat (length agents)))%Q).
  { change 1%Q with (inject_Z 1). rewrite <- Zle_Qle. unfold agents. simpl length. lia. }
  destruct (fold_add_within (map property agents)) with (acc := 0%Q) as (s & Hs & Hb).
  - apply List.Forall_map. exact Hall.
  - rewrite length_map. lra.
  - rewrite length_map. lra.
  - rewrite length_map in Hb. rewrite Hs, div_Num by lra.
    assert (Hq : (-1 <= s / inject_Z (Z.of_nat (length agents)) <= 1)%Q).
    { split.
      - apply Qle_shift_div_l; lra.
      - apply Qle_shift_div_r; lra. }
    rewrite finish_small by lra. exact Hq.
Qed.

Lemma createAgents_adherence {H} scale count :
  forall i (rt : Runtime H),
    wellSeeded rt ->
    Forall (fun a => within (-1) 1 (democraticAdherence a)) (createAgents scale i count rt).1.
Proof.
  induction count as [|count IH]; intros i rt Hseed; simpl.
  - constructor.
  - rewrite !bind_run. unfold ret. cbn [fst snd].
    constructor.
    + match goal with
      | |- within _ _ (democraticAdherence (AgentClass.new ?i ?x ?y ?r).1) =>
          destruct (new_inDomain i x y r) as (Ha & _); [|exact Ha]
      end.
      apply wellSeeded_silent; [silence|exact Hseed].
    + apply IH.
      apply wellSeeded_silent; [silence; apply silent_new|exact Hseed].
Qed.

Lemma createAgents_length {H} scale count :
  forall i (rt : Runtime H), length (createAgents scale i count rt).1 = count.
Proof.
  induction count as [|count IH]; intros i rt; simpl; [reflexivity|].
  rewrite !bind_run. unfold ret. cbn [fst snd length]. rewrite IH. reflexivity.
Qed.

(** At its creation a population is not absorbed: the institutions start at
    0.7 and the order parameter cannot exceed 0.7 (an array holds fewer than
    2^32 agents). *)
Lemma initialWorld_not_absorbed {H} `{MathHost} numAgents (rt : Runtime H) :
  wellSeeded rt ->
  (numAgents < 2 ^ 32)%nat ->
  let w := (initialWorld numAgents rt).1 in
  ~ absorbed w.1 w.2.
Proof.
  intros Hseed Hsmall. cbv zeta. unfold initialWorld. rewrite bind_run.
  unfold ret. cbn [fst snd].
  pose proof (createAgents_adherence 1 numAgents 0 rt Hseed) as Hall.
  pose proof (createAgents_length 1 numAgents 0 rt) as Hlen.
  set (created := (createAgents 1 0 numAgents rt).1) in *.
  set (agents := setupNeighborhoods 0.2 created).
  assert (Hall' : Forall (fun a => within (-1) 1 (democraticAdherence a)) agents).
  { unfold agents, setupNeighborhoods. apply List.Forall_map. exact Hall. }
  assert (Hlen' : (length agents < 2 ^ 32)%nat).
  { unfold agents, setupNeighborhoods. rewrite length_map, Hlen. exact Hsmall. }
  pose proof (getAverage_unit _ democraticAdherence Hall' Hlen') as Havg.
  unfold absorbed, SocietyClass.getOrderParameter.
  cbn [institutionalQuality SocietyClass.new].
  intros [Hq|Hpsi]; [discriminate Hq|].
  destruct agents as [|a0 rest].
  - rewrite Havg in Hpsi. discriminate Hpsi.
  - apply within_Num in Havg as (q & Hq & Hb). rewrite Hq in Hpsi.
    rewrite mul_Num, finish_small in Hpsi by lra.
    cbn [atMost] in Hpsi. apply Qle_bool_iff in Hpsi. lra.
Qed.

(** A realization of one agent: creating the agent takes eleven draws and
    each step one more.  Under the default parameters the three steps that
    [tMax = 3], [dt = 1] allow are all performed.  When inequality ruins the
    institutions in the first step, the realization stops there, though ten
    steps were allowed, and returns 0. *)
Example realization_runs_to_the_bound :
  draws (@singleRealization unit RationalHost newParameters 3 1 1 quietRuntime).2 = 14%nat.
Proof. vm_compute. reflexivity. Qed.

Example realization_stops_at_collapse :
  let r := @singleRealization unit RationalHost corruptParameters 10 1 1 quietRuntime in
  strictEq r.1 0 = true /\ draws r.2 = 12%nat.
Proof. split; vm_compute; reflexivity. Qed.

(** ** The averaged evaluation *)

Lemma silent_realizations {H} `{MathHost} params tMax dt numAgents count :
  silent (H:=H) (realizations params tMax dt numAgents count).
Proof.
  induction count as [|count IH]; simpl; silence; auto.
  apply silent_singleRealization.
Qed.

Lemma realizations_length {H} `{MathHost} params tMax dt numAgents count :
  forall rt : Runtime H,
    length (realizations params tMax dt numAgents count rt).1 = count.
Proof.
  induction count as [|count IH]; intros rt; simpl; [reflexivity|].
  unfold bind.
  destruct (singleRealization _ _ _ _ rt) as [psi rt1].
  specialize (IH rt1).
  destruct (realizations _ _ _ _ count rt1) as [rest rt2]. simpl in *.
  congruence.
Qed.

Lemma steadyStatePsi_quiet {H} `{MathHost} params : emits (H:=H) (steadyStatePsi params) [].
Proof.
  unfold steadyStatePsi, simulateToSteadyState.
  apply emits_bind_l.
  - apply emits_silent. apply silent_realizations.
  - intros psiValues. apply emits_bind_l; [|intros; apply emits_ret].
    destruct (lessThan _ _); [apply (emits_emit (Console (HighVariance _ _ _)))|apply emits_ret].
Qed.

(** *** Each realization runs on draws of its own *)

Lemma ownDraws_ret {H A} (a : A) : ownDraws (H:=H) (ret a).
Proof.
  intros rt. split; [reflexivity|]. split; [reflexivity|].
  intros rt' [Hd _]. split; [reflexivity|exact Hd].
Qed.

Lemma ownDraws_random {H} : ownDraws (H:=H) Math_random.
Proof.
  intros rt. unfold Math_random. cbn [fst snd draws entropy].
  split; [lia|]. split; [reflexivity|].
  intros rt' [Hd He]. rewrite Hd. rewrite (He (draws rt)) by lia.
  split; reflexivity.
Qed.

Lemma ownDraws_bind {H A B} (m : M H A) (k : A -> M H B) :
  ownDraws m -> (forall a, ownDraws (k a)) -> ownDraws (bind m k).
Proof.
  intros Hm Hk rt. rewrite bind_run.
  destruct (Hm rt) as (Hle1 & He1 & Hsame1).
  destruct (Hk (m rt).1 (m rt).2) as (Hle2 & He2 & Hsame2).
  split; [lia|]. split; [congruence|].
  intros rt' [Hd He]. rewrite bind_run.
  destruct (Hsame1 rt') as [Hv Hd1].
  { split; [exact Hd|]. intros n Hn. apply He. lia. }
  destruct (Hm rt') as (_ & He1' & _).
  rewrite Hv. apply Hsame2. split; [exact Hd1|].
  intros n Hn. rewrite He1', He1. apply He. lia.
Qed.

Ltac ownership :=
  repeat match goal with
         | |- ownDraws (ret _) => apply ownDraws_ret
         | |- ownDraws Math_random => apply ownDraws_random
         | |- ownDraws (bind _ _) => apply ownDraws_bind; [|intros ?]
         | |- ownDraws (if ?c then _ else _) => destruct c
         end.

Lemma ownDraws_forEachM {H A B} (f : A -> M H B) (l : list A) :
  (forall a, ownDraws (f a)) -> ownDraws (forEachM f l).
Proof.
  intros Hf. induction l as [|a l IH]; simpl; ownership; auto.
Qed.

Lemma ownDraws_createAgents {H} scale count :
  forall i, ownDraws (H:=H) (createAgents scale i count).
Proof.
  induction count as [|count IH]; intros i; simpl; ownership; auto.
  unfold AgentClass.new. ownership.
Qed.

Lemma ownDraws_integrate {H} `{MathHost} params dt agents society :
  ownDraws (H:=H) (integrate params dt agents society).
Proof.
  unfold integrate, simulateInterculturalContacts. ownership.
  apply ownDraws_forEachM. intros a. unfold drawContacts. ownership.
Qed.

Lemma ownDraws_realizationLoop {H} `{MathHost} params dt numSteps :
  forall agents society,
    ownDraws (H:=H) (realizationLoop params dt numSteps agents society).
Proof.
  induction numSteps as [|n IH]; intros agents society; simpl; ownership; auto.
  apply ownDraws_integrate.
Qed.

Lemma ownDraws_singleRealization {H} `{MathHost} params tMax dt numAgents :
  ownDraws (H:=H) (singleRealization params tMax dt numAgents).
Proof.
  unfold singleRealization. ownership.
  - apply ownDraws_createAgents.
  - apply ownDraws_realizationLoop.
Qed.

(** The values a call averages are those of its successive realizations. *)
Lemma realizations_chain {H} `{MathHost} params tMax dt numAgents count :
  forall rt : Runtime H,
    (realizations params tMax dt numAgents count rt).1 =
      map (fun s => (singleRealization params tMax dt numAgents s).1)
          (realizationStarts params tMax dt numAgents count rt).
Proof.
  induction count as [|count IH]; intros rt; simpl; [reflexivity|].
  rewrite !bind_run. unfold ret. cbn [fst snd]. rewrite IH. reflexivity.
Qed.

Lemma realizationStarts_independent {H} `{MathHost} params tMax dt numAgents count :
  forall rt : Runtime H,
    independentRuns (singleRealization params tMax dt numAgents)
                    (realizationStarts params tMax dt numAgents count rt).
Proof.
  induction count as [|count IH]; intros rt i s Hs; simpl in Hs.
  - rewrite lookup_nil in Hs. discriminate.
  - destruct i as [|i].
    + injection Hs as <-.
      destruct (ownDraws_singleRealization params tMax dt numAgents rt)
        as (Hle & He & Hsame).
      split; [exact Hle|]. split.
      * intros s' Hs'. change ((rt :: ?l) !! 1%nat) with (l !! 0%nat) in Hs'.
        destruct count as [|count']; simpl in Hs'; [discriminate|].
        injection Hs' as <-. split; [reflexivity|exact He].
      * intros rt' Hrt'. apply Hsame. exact Hrt'.
    + change ((rt :: ?l) !! S i) with (l !! i) in Hs.
      destruct (IH _ i s Hs) as (Hle & Hnext & Hsame).
      split; [exact Hle|]. split; [|exact Hsame].
      intros s' Hs'. change ((rt :: ?l) !! S (S i)) with (l !! S i) in Hs'.
      apply Hnext. exact Hs'.
Qed.

(** C3, as the code has it.  [simulateToSteadyState] runs K independent
    realizations, K = 10 unless the caller passes another count: one after
    the other, each on a population built from draws of its own.  It
    returns the arithmetic mean of their K final order parameters.  The
    standard deviation across them is computed; it is written to the
    console, in one line, when it exceeds 0.05, and not at all otherwise;
    the value returned to the caller is the mean alone. *)
Theorem simulateToSteadyState_mean {H} `{MathHost} (params : Parameters)
    (tMax dt : option number) (numAgents numRealizations : option nat) (rt : Runtime H) :
  let K := default 10%nat numRealizations in
  let run :=
    singleRealization params (default (Num 100) tMax) (default (Num 0.01) dt)
                      (default 100%nat numAgents) in
  let starts :=
    realizationStarts params (default (Num 100) tMax) (default (Num 0.01) dt)
                      (default 100%nat numAgents) K rt in
  let psiValues := map (fun s => (run s).1) starts in
  let avgPsi := sumOf psiValues / ofNat K in
  let stdDev := stdDevOf psiValues K in
  let result := simulateToSteadyState params tMax dt numAgents numRealizations rt in
  length starts = K /\
  head starts = (if Nat.eqb K 0 then None else Some rt) /\
  independentRuns run starts /\
  result.1 = avgPsi /\
  outputs result.2 =
    outputs rt ++
    (if lessThan 0.05 stdDev then [Console (HighVariance stdDev avgPsi psiValues)] else []).
Proof.
  cbv zeta.
  set (K := default 10%nat numRealizations).
  split.
  { generalize rt. induction K as [|K IH]; intros rt0; simpl; [reflexivity|].
    rewrite IH. reflexivity. }
  split; [destruct K; reflexivity|].
  split; [apply realizationStarts_independent|].
  unfold simulateToSteadyState. fold K. rewrite !bind_run. unfold ret. cbn [fst snd].
  destruct (silent_realizations params (default (Num 100) tMax) (default (Num 0.01) dt)
              (default 100%nat numAgents) K rt) as [Ho _].
  rewrite <- realizations_chain.
  unfold stdDevOf, average.
  destruct (lessThan 0.05 _); cbn [console_log emit fst snd outputs ret]; rewrite Ho.
  - split; reflexivity.
  - split; [reflexivity|]. symmetry. apply app_nil_r.
Qed.

(** C3, as the specification states it, fails: two calls with the same
    arguments, one whose ten realizations all end at 0 and one whose
    realizations end at -0.014 and +0.014 in turn, return the same value and
    write the same (empty) console output, yet their standard deviations are
    0 and 0.014.  Nothing the caller receives tells them apart. *)
Lemma stdDev_not_surfaced :
  strictEq (snapshotCall quietRuntime).1 (snapshotCall alternatingRuntime).1 = true /\
  outputs (snapshotCall quietRuntime).2 = outputs (snapshotCall alternatingRuntime).2 /\
  strictEq (@stdDevOf RationalHost (snapshotRealizations quietRuntime) 10) 0 = true /\
  strictEq (@stdDevOf RationalHost (snapshotRealizations alternatingRuntime) 10) 0.014
    = true.
Proof.
  split; [|split; [|split]].
  - vm_compute. reflexivity.
  - vm_compute. reflexivity.
  - vm_compute. reflexivity.
  - vm_compute. reflexivity.
Qed.

(** ** The root search: the within-tolerance test of the loop *)

Lemma lessThan_irrefl (a : number) : lessThan a a = false.
Proof.
  destruct a as [q| | |]; simpl; try reflexivity.
  apply Qltb_ge. lra.
Qed.

(** The candidate a pass of the loop leaves, by cases on the test. *)
Lemma bisectionStep_candidate {H} (simulate : Parameters -> M H number)
    paramName targetPsi tolerance extremum isIncreasing st (rt : Runtime H) :
  let mid := (low st + high st) / 2 in
  let psiMid := (simulate (setProperty (params st) paramName mid) rt).1 in
  bestCandidate
    (bisectionStep simulate paramName targetPsi tolerance extremum isIncreasing st rt).1 =
  if satisfiesCondition targetPsi tolerance psiMid then
    if String.eqb extremum "min" && lessThan mid (bestCandidate st) then mid
    else if String.eqb extremum "max" && lessThan (bestCandidate st) mid then mid
    else bestCandidate st
  else bestCandidate st.
Proof. cbv zeta. unfold bisectionStep. rewrite bind_run. reflexivity. Qed.

(** C7. In a pass of the bisection loop whose midpoint would improve the
    candidate (it is below the candidate of a ['min'] search, above that of
    a ['max'] search), the midpoint becomes the candidate exactly when the
    order parameter evaluated there passes the test of the loop, and that
    test is: for the target 0, the one-sided [psiMid <= 0 + tolerance]; for
    any other target, 0.3 among them, the two-sided
    [targetPsi - tolerance <= psiMid <= targetPsi + tolerance].  The
    candidate is otherwise left as it was. *)
Theorem bisectionStep_candidate_test {H} (simulate : Parameters -> M H number)
    (paramName : string) (targetPsi tolerance : number) (extremum : string)
    (isIncreasing : bool) (st : SearchState) (rt : Runtime H) :
  let mid := (low st + high st) / 2 in
  let psiMid := (simulate (setProperty (params st) paramName mid) rt).1 in
  let st1 :=
    (bisectionStep simulate paramName targetPsi tolerance extremum isIncreasing st rt).1 in
  (extremum = "min" /\ lessThan mid (bestCandidate st) = true) \/
  (extremum = "max" /\ lessThan (bestCandidate st) mid = true) ->
  (strictEq targetPsi 0 = true ->
   (bestCandidate st1 = mid <-> atMost psiMid (0 + tolerance) = true)) /\
  (strictEq targetPsi 0 = false ->
   (bestCandidate st1 = mid <->
    atMost (targetPsi - tolerance) psiMid = true /\
    atMost psiMid (targetPsi + tolerance) = true)) /\
  (bestCandidate st1 = mid \/ bestCandidate st1 = bestCandidate st).
Proof.
  cbv zeta. intros Himproves.
  rewrite bisectionStep_candidate. cbv zeta.
  set (mid := (low st + high st) / 2) in *.
  set (psiMid := (simulate (setProperty (params st) paramName mid) rt).1).
  assert (Hne : bestCandidate st <> mid).
  { intros Heq. rewrite Heq, lessThan_irrefl in Himproves.
    destruct Himproves as [[_ Hf]|[_ Hf]]; discriminate Hf. }
  assert (Hpick :
    (if String.eqb extremum "min" && lessThan mid (bestCandidate st) then mid
     else if String.eqb extremum "max" && lessThan (bestCandidate st) mid then mid
          else bestCandidate st) = mid).
  { destruct Himproves as [[-> Hlt]|[-> Hlt]]; rewrite Hlt; simpl; [reflexivity|].
    destruct (lessThan mid (bestCandidate st)); reflexivity. }
  rewrite Hpick. unfold satisfiesCondition.
  split; [|split].
  - intros ->. destruct (atMost psiMid (0 + tolerance)); split; congruence.
  - intros ->. rewrite <- andb_true_iff.
    destruct (atMost (targetPsi - tolerance) psiMid && atMost psiMid (targetPsi + tolerance));
      split; congruence.
  - destruct (if strictEq targetPsi 0 then _ else _); auto.
Qed.

(** On the first pass of a ['max'] search over [[0, 2]], with tolerance 0.02
    and an order parameter of -0.5 at the midpoint: for the target 0 the
    midpoint becomes the candidate, though -0.5 is not within 0.02 of 0; for
    the target 0.3 the candidate stays where it was. *)
Lemma bisectionStep_candidate_test_witness :
  let pass targetPsi :=
    (bisectionStep (H:=unit) (constantPsi (-0.5)) "beta1" targetPsi 0.02 "max" true
                   freshBracket quietRuntime).1 in
  bestCandidate (pass 0) = (low freshBracket + high freshBracket) / 2 /\
  atMost (0 - 0.02) (-0.5) = false /\
  bestCandidate (pass 0.3) <> (low freshBracket + high freshBracket) / 2.
Proof.
  cbv zeta.
  assert (Himproves :
    ("max" = "min" /\
     lessThan ((low freshBracket + high freshBracket) / 2) (bestCandidate freshBracket) = true)
    \/ ("max" = "max" /\
        lessThan (bestCandidate freshBracket) ((low freshBracket + high freshBracket) / 2)
        = true)) by (right; split; reflexivity).
  split; [|split].
  - destruct (bisectionStep_candidate_test (H:=unit) (constantPsi (-0.5)) "beta1" 0 0.02
                "max" true freshBracket quietRuntime Himproves) as (Hzero & _ & _).
    apply (Hzero eq_refl). reflexivity.
  - reflexivity.
  - destruct (bisectionStep_candidate_test (H:=unit) (constantPsi (-0.5)) "beta1" 0.3 0.02
                "max" true freshBracket quietRuntime Himproves) as (_ & Hother & _).
    intros Heq. apply (Hother eq_refl) in Heq. destruct Heq as [Hlo _]. discriminate Hlo.
Defined.

(** The whole loop on an order parameter that jumps from -0.5 to 0.5 at
    1.5, searched for the target 0: every midpoint below the jump passes the
    test, so the candidate follows the lower end of the bracket up to the
    jump instead of staying at [pMin]. *)
Example bisection_accepts_far_below :
  let st :=
    (bisection (H:=unit) (stepPsi "beta1") "beta1" 0 0.02 "max" true maxIterations
               (mkSearchState 0 2 0 0 newParameters) quietRuntime).1 in
  bestCandidate st = low st /\
  lessThan 1.49 (bestCandidate st) = true /\
  lessThan (bestCandidate st) 1.5 = true /\
  iteration st = 14%nat.
Proof. vm_compute. repeat split; reflexivity. Qed.

(** ** The root search stays in the range *)

(** The midpoint of two numbers of a range whose ends are at most
    [HALF_MAX] in magnitude. *)
Lemma midpoint_within (pMin pMax l h : Q) :
  (- HALF_MAX <= pMin)%Q -> (pMax <= HALF_MAX)%Q ->
  (pMin <= l)%Q -> (l <= h)%Q -> (h <= pMax)%Q ->
  (Num l + Num h) / 2 = Num ((l + h) / 2) /\ (l <= (l + h) / 2 <= h)%Q.
Proof.
  unfold HALF_MAX. intros Hmin Hmax Hl Hlh Hh.
  assert (Eh : (MAX_VALUE / 2 == MAX_VALUE * (1 # 2))%Q) by (unfold Qdiv; reflexivity).
  assert (Em : ((l + h) / 2 == (l + h) * (1 # 2))%Q) by (unfold Qdiv; reflexivity).
  rewrite Eh in Hmin, Hmax.
  pose proof MAX_VALUE_large as Hbig.
  rewrite add_Num, finish_Num by lra.
  rewrite div_Num by lra.
  rewrite finish_Num by (rewrite Em; lra).
  split; [reflexivity|]. rewrite Em. lra.
Qed.

Section InRange.

Context {H : Type}.
Variable simulate : Parameters -> M H number.
Variables pMin pMax : Q.
Hypothesis pMin_bounded : (- HALF_MAX <= pMin)%Q.
Hypothesis pMax_bounded : (pMax <= HALF_MAX)%Q.

Lemma bisectionStep_bracketed paramName targetPsi tolerance extremum isIncreasing st rt :
  bracketed pMin pMax st ->
  bracketed pMin pMax
    (bisectionStep simulate paramName targetPsi tolerance extremum isIncreasing st rt).1.
Proof.
  intros (Hl & Hh & Hlh & Hb).
  apply within_Num in Hl as (l & El & Hl).
  apply within_Num in Hh as (h & Eh & Hh).
  rewrite El, Eh in Hlh. cbn [atMost] in Hlh. apply Qle_bool_iff in Hlh.
  destruct (midpoint_within pMin pMax l h pMin_bounded pMax_bounded) as [Emid Hmid];
    try lra.
  unfold bisectionStep. rewrite bind_run. unfold ret. cbn [fst].
  rewrite El, Eh, Emid.
  set (psiMid := (simulate _ rt).1).
  unfold bracketed. cbn [low high bestCandidate].
  assert (Hm : within pMin pMax (Num ((l + h) / 2))) by (simpl; lra).
  assert (Hlw : within pMin pMax (Num l)) by (simpl; lra).
  assert (Hhw : within pMin pMax (Num h)) by (simpl; lra).
  assert (Hlm : atMost (Num l) (Num ((l + h) / 2)) = true)
    by (apply Qle_bool_iff; lra).
  assert (Hmh : atMost (Num ((l + h) / 2)) (Num h) = true)
    by (apply Qle_bool_iff; lra).
  split; [|split; [|split]].
  - destruct isIncreasing, (lessThan psiMid targetPsi); assumption.
  - destruct isIncreasing, (lessThan psiMid targetPsi); assumption.
  - destruct isIncreasing, (lessThan psiMid targetPsi); assumption.
  - destruct (satisfiesCondition _ _ _); [|exact Hb].
    destruct (_ && _); [exact Hm|]. destruct (_ && _); [exact Hm|exact Hb].
Qed.

Lemma bisection_bracketed paramName targetPsi tolerance extremum isIncreasing remaining :
  forall st rt,
    bracketed pMin pMax st ->
    bracketed pMin pMax
      (bisection simulate paramName targetPsi tolerance extremum isIncreasing
                 remaining st rt).1.
Proof.
  induction remaining as [|remaining IH]; intros st rt Hst; simpl.
  - exact Hst.
  - destruct (lessThan _ _); [|exact Hst].
    rewrite bind_run. apply IH. apply bisectionStep_bracketed. exact Hst.
Qed.

End InRange.

Lemma extremum_within (a b : number) (lo hi : Q) :
  within lo hi a -> within lo hi b ->
  within lo hi (Math_min a b) /\ within lo hi (Math_max a b).
Proof.
  intros Ha Hb.
  apply within_Num in Ha as (x & -> & Hx). apply within_Num in Hb as (y & -> & Hy).
  unfold Math_min, Math_max. simpl.
  split; destruct (Qltb _ _); simpl; lra.
Qed.

(** C10, as the code has it.  For every call of [findParameterForPsi] with
    [pMin <= pMax], both of magnitude at most half of [Number.MAX_VALUE],
    the value returned is a number of [[pMin, pMax]], whatever the
    evaluations of the order parameter yield ([NaN] and the infinities
    included), whatever the target, the tolerance and the extremum
    requested. *)
Theorem findParameterForPsi_in_range {H} (simulate : Parameters -> M H number)
    (paramName : string) (targetPsi : number) (baseParams : Parameters) (pMin pMax : Q)
    (tolerance : option number) (extremum : option string) (rt : Runtime H) :
  (pMin <= pMax)%Q ->
  (- HALF_MAX <= pMin)%Q ->
  (pMax <= HALF_MAX)%Q ->
  let result :=
    (findParameterForPsiWith simulate paramName targetPsi baseParams pMin pMax
                             tolerance extremum rt).1 in
  within pMin pMax result.
Proof.
  intros Hle Hmin Hmax. cbv zeta. unfold findParameterForPsiWith.
  rewrite !bind_run.
  assert (Wmin : within pMin pMax (Num pMin)) by (simpl; lra).
  assert (Wmax : within pMin pMax (Num pMax)) by (simpl; lra).
  destruct (_ || _).
  - rewrite bind_run. unfold ret. cbn [fst].
    destruct (String.eqb _ _), (lessThan _ _); assumption.
  - rewrite !bind_run.
    match goal with
    | |- context [bisection ?s ?n ?t ?tol ?e ?inc ?r ?st0 ?rt0] =>
        pose proof (bisection_bracketed s pMin pMax Hmin Hmax n t tol e inc r st0 rt0) as Hb;
        set (st := (bisection s n t tol e inc r st0 rt0).1) in *
    end.
    assert (Hst : bracketed pMin pMax st).
    { apply Hb. unfold bracketed. cbn [low high bestCandidate].
      split; [exact Wmin|]. split; [exact Wmax|].
      split; [apply Qle_bool_iff; exact Hle|].
      destruct (String.eqb _ _); assumption. }
    clear Hb. destruct Hst as (Hl & Hh & Hlh & Hbest).
    apply within_Num in Hl as (l & El & Hl).
    apply within_Num in Hh as (h & Eh & Hh).
    rewrite El, Eh in Hlh. cbn [atMost] in Hlh. apply Qle_bool_iff in Hlh.
    destruct (midpoint_within pMin pMax l h Hmin Hmax) as [Emid Hmid]; try lra.
    unfold ret. cbn [fst]. rewrite El, Eh, Emid.
    assert (Hm : within pMin pMax (Num ((l + h) / 2))) by (simpl; lra).
    destruct (extremum_within _ _ pMin pMax Hbest Hm) as [Wlo Whi].
    destruct (lessThan (Math_abs _) _).
    + destruct (String.eqb _ _); assumption.
    + destruct (negb _); assumption.
Qed.

Lemma findParameterForPsi_in_range_witness :
  (0 <= 2)%Q /\ (- HALF_MAX <= 0)%Q /\ (2 <= HALF_MAX)%Q /\
  within 0 2
    (findParameterForPsiWith (H:=unit) (linearPsi "beta1") "beta1" 0.3 newParameters
       0 2 (Some (Num 0.02)) (Some "min") quietRuntime).1.
Proof.
  assert (Hle : (0 <= 2)%Q) by lra.
  assert (Hmin : (- HALF_MAX <= 0)%Q) by (vm_compute; discriminate).
  assert (Hmax : (2 <= HALF_MAX)%Q) by (vm_compute; discriminate).
  pose proof (findParameterForPsi_in_range (H:=unit) (linearPsi "beta1") "beta1" 0.3
                newParameters 0 2 (Some (Num 0.02)) (Some "min") quietRuntime
                Hle Hmin Hmax) as Hw.
  cbv zeta in Hw.
  split; [exact Hle|]. split; [exact Hmin|]. split; [exact Hmax|]. exact Hw.
Defined.

(** C10, as the specification states it, fails near the top of the doubles:
    over the range [[1e308, 1.7e308]], with the order parameter equal to the
    parameter, the target 1.5e308 and the extremum ['max'], the sum
    [low + high] of the first midpoint overflows, every midpoint is
    [Infinity], and [Infinity] is the value returned. *)
Lemma findParameterForPsi_overflows :
  let result :=
    (findParameterForPsiWith (H:=unit) (linearPsi "beta1") "beta1" hugeTarget
       newParameters hugeMin hugeMax None (Some "max") quietRuntime).1 in
  (hugeMin <= hugeMax)%Q /\
  result = Infinity /\
  atMost result hugeMax = false.
Proof.
  cbv zeta. split; [vm_compute; discriminate|].
  split; vm_compute; reflexivity.
Qed.

(** ** The root search: a target out of reach *)

(** C2. When the target lies outside the interval spanned by the order
    parameter measured at [pMin] and at [pMax], [findParameterForPsi] returns
    one of the two endpoints, chosen from the requested extremum and the
    measured direction alone: for ['min'], [pMin] if increasing and [pMax]
    otherwise; for ['max'], [pMax] if increasing and [pMin] otherwise.  The
    distances from the target to the two measured values play no part. *)
Theorem findParameterForPsi_out_of_reach {H} (simulate : Parameters -> M H number)
    (paramName : string) (targetPsi : number) (baseParams : Parameters)
    (pMin pMax : number) (tolerance : option number) (extremum : option string) (rt : Runtime H) :
  let atMin := simulate (setProperty baseParams paramName pMin) rt in
  let atMax :=
    simulate (setProperty (setProperty baseParams paramName pMin) paramName pMax) atMin.2 in
  let psiMin := atMin.1 in
  let psiMax := atMax.1 in
  let isIncreasing := lessThan psiMin psiMax in
  let result :=
    (findParameterForPsiWith simulate paramName targetPsi baseParams pMin pMax
                             tolerance extremum rt).1 in
  lessThan targetPsi (Math_min psiMin psiMax) = true \/
  lessThan (Math_max psiMin psiMax) targetPsi = true ->
  (result = pMin \/ result = pMax) /\
  (default "min" extremum = "min" -> result = if isIncreasing then pMin else pMax) /\
  (default "min" extremum = "max" -> result = if isIncreasing then pMax else pMin).
Proof.
  cbv zeta. intros Hout.
  unfold findParameterForPsiWith, bind.
  destruct (simulate _ rt) as [psiMin rt1]. simpl in *.
  destruct (simulate _ rt1) as [psiMax rt2]. simpl in *.
  assert (E : lessThan targetPsi (Math_min psiMin psiMax)
              || lessThan (Math_max psiMin psiMax) targetPsi = true).
  { apply orb_true_iff. exact Hout. }
  rewrite E. simpl.
  split; [|split].
  - destruct (String.eqb _ _), (lessThan psiMin psiMax); auto.
  - intros ->. reflexivity.
  - intros ->. reflexivity.
Qed.

Lemma findParameterForPsi_out_of_reach_witness :
  (lessThan 0.3 (Math_min (0.1 + 0 * 0.05) (0.1 + 2 * 0.05)) = true \/
   lessThan (Math_max (0.1 + 0 * 0.05) (0.1 + 2 * 0.05)) 0.3 = true) /\
  (findParameterForPsiWith (H:=unit) (flatPsi "beta1") "beta1" 0.3 newParameters
     0 2 (Some (Num 0.02)) (Some "min") quietRuntime).1 = Num 0 /\
  nearestEndpoint 0.3 (0.1 + 0 * 0.05) (0.1 + 2 * 0.05) 0 2 = Num 2.
Proof.
  assert (Hout :
    lessThan 0.3 (Math_min (0.1 + 0 * 0.05) (0.1 + 2 * 0.05)) = true \/
    lessThan (Math_max (0.1 + 0 * 0.05) (0.1 + 2 * 0.05)) 0.3 = true)
    by (right; reflexivity).
  split; [exact Hout|]. split; [|reflexivity].
  destruct (findParameterForPsi_out_of_reach (H:=unit) (flatPsi "beta1") "beta1" 0.3
              newParameters 0 2 (Some (Num 0.02)) (Some "min") quietRuntime Hout)
    as (_ & Hmin & _).
  rewrite (Hmin eq_refl). reflexivity.
Defined.

(** The search on the synthetic evaluation psi(p) = p over [0, 2]:
    within the tolerance 0.02 of either target. *)
Example linear_search_autocratic :
  strictEq (findParameterForPsiWith (H:=unit) (linearPsi "beta1") "beta1" 0 newParameters
              0 2 (Some (Num 0.02)) (Some "max") quietRuntime).1
           (1 # 64) = true.
Proof. vm_compute. reflexivity. Qed.

Example linear_search_democratic :
  strictEq (findParameterForPsiWith (H:=unit) (linearPsi "beta1") "beta1" 0.3 newParameters
              0 2 (Some (Num 0.02)) (Some "min") quietRuntime).1
           (9 # 32) = true.
Proof. vm_compute. reflexivity. Qed.

(** ** The sweep: its marks *)

Section SweepMarks.

Context {H : Type}.
Variable simulate : Parameters -> M H number.
Hypothesis simulate_quiet : forall params, emits (simulate params) [].

Lemma bisectionStep_quiet paramName targetPsi tolerance extremum isIncreasing st :
  emits (bisectionStep simulate paramName targetPsi tolerance extremum isIncreasing st) [].
Proof.
  unfold bisectionStep. apply emits_bind_l; [apply simulate_quiet|].
  intros psiMid. apply emits_ret.
Qed.

Lemma bisection_quiet paramName targetPsi tolerance extremum isIncreasing remaining :
  forall st,
    emits (bisection simulate paramName targetPsi tolerance extremum isIncreasing
                     remaining st) [].
Proof.
  induction remaining as [|remaining IH]; intros st; simpl.
  - apply emits_ret.
  - destruct (lessThan _ _); [|apply emits_ret].
    apply emits_bind_l; [apply bisectionStep_quiet|]. intros st1. apply IH.
Qed.

(** A search writes one mark, with the arguments it was called with. *)
Lemma findParameterForPsi_marks paramName targetPsi baseParams pMin pMax tolerance extremum :
  emits (findParameterForPsiWith simulate paramName targetPsi baseParams pMin pMax
                                 tolerance extremum)
        [SearchMark paramName targetPsi (default "min" extremum)].
Proof.
  unfold findParameterForPsiWith.
  apply emits_bind_l; [apply simulate_quiet|]. intros psiMin.
  apply emits_bind_l; [apply simulate_quiet|]. intros psiMax.
  apply (emits_bind _ _ [SearchMark paramName targetPsi (default "min" extremum)] []).
  { apply (emits_emit (Console (SearchStart _ _ _ _ _ _ _ _))). }
  intros _.
  destruct (_ || _).
  - apply emits_bind_l; [apply (emits_emit (Console (OutOfReach _ _ _ _)))|].
    intros _. apply emits_ret.
  - apply emits_bind_l; [apply bisection_quiet|]. intros st.
    apply emits_bind_l; [apply simulate_quiet|]. intros psiFinal.
    apply emits_bind_l; [apply (emits_emit (Console (Found _ _ _ _)))|].
    intros _. apply emits_ret.
Qed.

Lemma analyzeParameter_marks baseParams progressCallback total results i param :
  emits (analyzeParameter simulate baseParams progressCallback total results i param)
        (parameterMarks progressCallback total i param).
Proof.
  unfold analyzeParameter, parameterMarks.
  apply emits_bind_l; [apply (emits_emit (Console (ParameterHeader _ _ _ _)))|].
  intros _. apply emits_bind.
  { destruct progressCallback as [callback|];
      [apply (emits_emit (Invoke _))|apply emits_ret]. }
  intros _.
  apply (emits_bind _ _
           [SearchMark (key param) 0 (if virtuous param then "max" else "min");
            SearchMark (key param) 0.3 (if virtuous param then "min" else "max")]
           [ZoneMark (key param)]).
  - destruct (virtuous param).
    + apply (emits_bind _ _ [SearchMark (key param) 0 "max"]
                            [SearchMark (key param) 0.3 "min"]).
      * apply findParameterForPsi_marks.
      * intros pAutocratic. apply emits_bind_r; [apply findParameterForPsi_marks|].
        intros pDemocratic. apply emits_ret.
    + apply (emits_bind _ _ [SearchMark (key param) 0 "min"]
                            [SearchMark (key param) 0.3 "max"]).
      * apply findParameterForPsi_marks.
      * intros pAutocratic. apply emits_bind_r; [apply findParameterForPsi_marks|].
        intros pDemocratic. apply emits_ret.
  - intros pair. apply emits_bind_r; [apply (emits_emit (Console (ZoneResult _ _ _ _)))|].
    intros _. apply emits_ret.
Qed.

Lemma sweep_marks baseParams progressCallback total todo :
  forall results i,
    emits (sweep simulate baseParams progressCallback total results i todo)
          (sweepMarks progressCallback total i todo).
Proof.
  induction todo as [|param todo IH]; intros results i; simpl.
  - apply emits_ret.
  - apply emits_bind; [apply analyzeParameter_marks|]. intros results1. apply IH.
Qed.

Lemma analyzeSensitivityWith_marks baseParams progressCallback :
  emits (analyzeSensitivityWith simulate baseParams progressCallback)
        (sweepMarks progressCallback (length parametersToAnalyze) 0 parametersToAnalyze).
Proof.
  unfold analyzeSensitivityWith.
  apply emits_bind_l; [apply (emits_emit (Console AnalysisStart))|]. intros _.
  apply emits_bind_r; [apply sweep_marks|]. intros results.
  apply emits_bind_l; [apply (emits_emit (Console AnalysisDone))|]. intros _.
  apply emits_bind_l; [apply (emits_emit (Table _))|]. intros _.
  apply emits_ret.
Qed.

End SweepMarks.

(** The marks of the exported sweep. *)
Lemma analyzeSensitivity_marks {H} `{MathHost} baseParams
    (progressCallback : option (string -> nat -> nat -> H)) :
  emits (analyzeSensitivity baseParams progressCallback)
        (sweepMarks progressCallback 7 0 parametersToAnalyze).
Proof.
  apply (analyzeSensitivityWith_marks steadyStatePsi).
  intros params. apply steadyStatePsi_quiet.
Qed.

(** ** The sweep: which extremum each search requests, and when progress is reported *)

(** C1. For every tunable parameter, in sweep order, [analyzeSensitivity]
    performs the autocratic search (target 0) then the democratic search
    (target 0.3); for a virtuous parameter the first requests ['max'] and the
    second ['min'], for a harmful one the first requests ['min'] and the
    second ['max'].  These are all the searches it performs. *)
Theorem analyzeSensitivity_extrema {H} `{MathHost} (baseParams : Parameters)
    (progressCallback : option (string -> nat -> nat -> H)) (rt : Runtime H) :
  searches (outputs (analyzeSensitivity baseParams progressCallback rt).2) =
  searches (outputs rt) ++
  flat_map (fun param =>
              [ (key param, Num 0, if virtuous param then "max" else "min");
                (key param, Num 0.3, if virtuous param then "min" else "max") ])
           parametersToAnalyze.
Proof.
  unfold searches.
  rewrite (analyzeSensitivity_marks baseParams progressCallback rt), omap_app.
  f_equal. destruct progressCallback; reflexivity.
Qed.

(** C9, as the code has it.  With a callback supplied, [analyzeSensitivity]
    calls it once per tunable parameter, in sweep order, with the parameter's
    name, its 1-based position in the sweep and the number of parameters; the
    call comes before the two searches of that parameter, not after them. *)
Theorem analyzeSensitivity_progress {H} `{MathHost} (baseParams : Parameters)
    (callback : string -> nat -> nat -> H) (rt : Runtime H) :
  marks (outputs (analyzeSensitivity baseParams (Some callback) rt).2) =
  marks (outputs rt) ++
  flat_map (fun ip =>
              [ InvokeMark (callback (key ip.2) (ip.1 + 1)%nat 7%nat);
                SearchMark (key ip.2) 0 (if virtuous ip.2 then "max" else "min");
                SearchMark (key ip.2) 0.3 (if virtuous ip.2 then "min" else "max");
                ZoneMark (key ip.2) ])
           (imap (fun i param => (i, param)) parametersToAnalyze).
Proof.
  rewrite (analyzeSensitivity_marks baseParams (Some callback) rt).
  reflexivity.
Qed.

(** C9, as the specification states it, fails: on the default parameters
    the callback is called for a parameter whose searches have not been
    completed; the first call, for beta1, precedes every search. *)
Lemma progress_reported_before_searches :
  reportsAfterCompletion []
    (marks (outputs (@analyzeSensitivity _ RationalHost newParameters
                       (Some recordProgress) quietRuntime).2)) = false.
Proof.
  rewrite (@analyzeSensitivity_marks _ RationalHost newParameters (Some recordProgress)
             quietRuntime).
  reflexivity.
Qed.
